(** * Cellule Dashboard (app.py): the data layer, embedded and verified

    The program is a Streamlit script over one SQLite file with three
    tables (members, attendance, prayers).  Every run of the script calls
    [init_db] and then renders one page; the pages read the tables through
    [run_query] and write them through [execute].

    The embedding follows the script:
    - the database file is a value of type [db]; a table that was dropped
      does not exist ([None]) until [init_db] creates it again;
    - [execute] and [run_query] live in a small state-and-exception monad
      [M]: a statement against a missing table raises, as sqlite3 does;
    - the clock ([date.today()], [pd.Timestamp.today()]) and the widgets'
      values are arguments of the functions that read them;
    - DATE columns only ever receive [date.isoformat()] texts; a row keeps
      the calendar date and [isoformat] gives its stored text wherever the
      code reads the text (ORDER BY, CSV);
    - pandas computes means in binary64; the model keeps the exact
      rational ([Q]) and leaves the rounding of the display out;
    - what a page only displays does not change the file and is not
      part of [script]; the open-prayers metric, the recent prayers, the
      member box and the attendance history are modelled on their own
      ([Display], [History]), the sorted table of the history and the
      chart's drawing are left out; rowids are unbounded integers. *)

From Stdlib Require Import ZArith List String Ascii Bool Lia.
From Stdlib Require Import QArith Permutation Sorted.
From Stdlib Require Import DecimalString DecimalPos DecimalZ.
Import ListNotations.

Local Open Scope string_scope.
Local Open Scope list_scope.
Local Open Scope Z_scope.

(* ================================================================= *)
(** ** Calendar dates and timestamps *)

Module Calendar.

Record date := mkdate { year : Z; month : Z; day : Z }.

Definition is_leap (y : Z) : bool :=
  (y mod 4 =? 0) && (negb (y mod 100 =? 0) || (y mod 400 =? 0)).

Definition days_in_month (y m : Z) : Z :=
  if m =? 2 then (if is_leap y then 29 else 28)
  else if (m =? 4) || (m =? 6) || (m =? 9) || (m =? 11) then 30
  else 31.

(** The values a Python [datetime.date] can take. *)
Definition valid_date (d : date) : bool :=
  (1 <=? year d) && (year d <=? 9999) &&
  (1 <=? month d) && (month d <=? 12) &&
  (1 <=? day d) && (day d <=? days_in_month (year d) (month d)).

(** Python compares dates as the triples (year, month, day). *)
Definition date_compare (a b : date) : comparison :=
  match year a ?= year b with
  | Eq => match month a ?= month b with
          | Eq => day a ?= day b
          | c => c
          end
  | c => c
  end.

Definition date_eqb (a b : date) : bool :=
  (year a =? year b) && (month a =? month b) && (day a =? day b).

Definition date_ltb (a b : date) : bool :=
  match date_compare a b with Lt => true | _ => false end.

Definition date_leb (a b : date) : bool :=
  match date_compare a b with Gt => false | _ => true end.

Definition digit (n : Z) : ascii := ascii_of_nat (48 + Z.to_nat (n mod 10)).

(** "%02d" and "%04d" on the ranges a date has. *)
Definition pad2 (n : Z) : string :=
  String (digit (n / 10)) (String (digit n) EmptyString).

Definition pad4 (n : Z) : string := pad2 (n / 100) ++ pad2 (n mod 100).

(** [date.isoformat()]: YYYY-MM-DD. *)
Definition isoformat (d : date) : string :=
  pad4 (year d) ++ "-" ++ pad2 (month d) ++ "-" ++ pad2 (day d).

(** [date.toordinal()], as datetime.py computes it: days before the
    year, days before the month, day of the month. *)
Definition days_before_year (y : Z) : Z :=
  let p := y - 1 in p * 365 + p / 4 - p / 100 + p / 400.

Fixpoint days_before_month_from (y : Z) (m : nat) : Z :=
  match m with
  | O => 0
  | S k => days_before_month_from y k + days_in_month y (Z.of_nat m)
  end.

Definition days_before_month (y m : Z) : Z :=
  days_before_month_from y (Z.to_nat (m - 1)).

Definition toordinal (d : date) : Z :=
  days_before_year (year d) + days_before_month (year d) (month d) + day d.

(** Timestamps are counted in nanoseconds, as pandas does. *)
Definition NS_PER_DAY : Z := 86400 * 1000000000.

Definition Timedelta (days : Z) : Z := days * NS_PER_DAY.

(** [pd.to_datetime] of a stored date: midnight of that day. *)
Definition to_datetime (d : date) : Z := toordinal d * NS_PER_DAY.

(** What the script reads from the system clock during one run:
    the local date and the time elapsed since midnight. *)
Record clock := mkclock { today : date; time_of_day : Z }.

Definition valid_clock (c : clock) : bool :=
  valid_date (today c) && (0 <=? time_of_day c)
  && (time_of_day c <? NS_PER_DAY).

(** [pd.Timestamp.today()]. *)
Definition Timestamp_today (c : clock) : Z :=
  to_datetime (today c) + time_of_day c.

End Calendar.
Import Calendar.

(* ================================================================= *)
(** ** The database file *)

Module Storage.

(** members (id, name, phone, email, role, joined) *)
Record member := mkmember {
  m_id : Z; m_name : string; m_phone : string; m_email : string;
  m_role : string; m_joined : date }.

(** attendance (id, member_id, attend_date, present, note) *)
Record attendance_rec := mkattendance {
  a_id : Z; a_member_id : Z; a_attend_date : date; a_present : Z;
  a_note : string }.

(** prayers (id, requester, content, created, status) *)
Record prayer := mkprayer {
  p_id : Z; p_requester : string; p_content : string; p_created : date;
  p_status : string }.

(** A table: its rows in rowid order, and the value SQLite keeps for it
    in sqlite_sequence (the largest rowid it ever gave, 0 when fresh). *)
Record table (R : Type) := mktable { rows : list R; seq : Z }.
Arguments mktable {R} _ _.
Arguments rows {R} _.
Arguments seq {R} _.

Definition empty_table {R : Type} : table R := mktable [] 0.

Record db := mkdb {
  members : option (table member);
  attendance : option (table attendance_rec);
  prayers : option (table prayer) }.

(** No file yet: sqlite3.connect creates an empty database. *)
Definition no_tables : db := mkdb None None None.

(** The three tables, freshly created. *)
Definition empty_tables : db :=
  mkdb (Some empty_table) (Some empty_table) (Some empty_table).

Definition max_rowid (ids : list Z) : Z := fold_right Z.max 0 ids.

(** INTEGER PRIMARY KEY AUTOINCREMENT: one more than the largest rowid
    the table holds or ever held. *)
Definition next_rowid {R : Type} (rowid : R -> Z) (t : table R) : Z :=
  Z.max (seq t) (max_rowid (map rowid (rows t))) + 1.

Definition insert_row {R : Type} (rowid : R -> Z) (mk : Z -> R) (t : table R)
  : table R :=
  let i := next_rowid rowid t in
  mktable (rows t ++ [mk i]) i.

(** The statements the script sends through [execute]. *)
Inductive statement :=
| CREATE_members_IF_NOT_EXISTS
| CREATE_attendance_IF_NOT_EXISTS
| CREATE_prayers_IF_NOT_EXISTS
| INSERT_members (name phone email role : string) (joined : date)
| INSERT_attendance (member_id : Z) (attend_date : date) (present : Z)
    (note : string)
| INSERT_prayers (requester content : string) (created : date)
    (status : string)
| UPDATE_prayers_status (status : string) (id : Z)
| DROP_attendance_IF_EXISTS
| DROP_prayers_IF_EXISTS
| DROP_members_IF_EXISTS.

Definition set_status (status : string) (id : Z) (p : prayer) : prayer :=
  if p_id p =? id
  then mkprayer (p_id p) (p_requester p) (p_content p) (p_created p) status
  else p.

Definition or_create {R : Type} (t : option (table R)) : option (table R) :=
  match t with
  | Some t' => Some t'
  | None => Some empty_table
  end.

(** One statement on the file; [None] is sqlite3.OperationalError
    (no such table). *)
Definition sql_exec (q : statement) (d : db) : option db :=
  match q with
  | CREATE_members_IF_NOT_EXISTS =>
      Some (mkdb (or_create (members d)) (attendance d) (prayers d))
  | CREATE_attendance_IF_NOT_EXISTS =>
      Some (mkdb (members d) (or_create (attendance d)) (prayers d))
  | CREATE_prayers_IF_NOT_EXISTS =>
      Some (mkdb (members d) (attendance d) (or_create (prayers d)))
  | INSERT_members name phone email role joined =>
      match members d with
      | Some t =>
          Some (mkdb
                  (Some (insert_row m_id
                           (fun i => mkmember i name phone email role joined)
                           t))
                  (attendance d) (prayers d))
      | None => None
      end
  | INSERT_attendance member_id attend_date present note =>
      match attendance d with
      | Some t =>
          Some (mkdb (members d)
                  (Some (insert_row a_id
                           (fun i => mkattendance i member_id attend_date
                                       present note) t))
                  (prayers d))
      | None => None
      end
  | INSERT_prayers requester content created status =>
      match prayers d with
      | Some t =>
          Some (mkdb (members d) (attendance d)
                  (Some (insert_row p_id
                           (fun i => mkprayer i requester content created
                                       status) t)))
      | None => None
      end
  | UPDATE_prayers_status status id =>
      match prayers d with
      | Some t =>
          Some (mkdb (members d) (attendance d)
                  (Some (mktable (map (set_status status id) (rows t))
                           (seq t))))
      | None => None
      end
  | DROP_attendance_IF_EXISTS => Some (mkdb (members d) None (prayers d))
  | DROP_prayers_IF_EXISTS => Some (mkdb (members d) (attendance d) None)
  | DROP_members_IF_EXISTS => Some (mkdb None (attendance d) (prayers d))
  end.

End Storage.
Import Storage.

(* ================================================================= *)
(** ** State and exceptions *)

Module Run.

Inductive exn := OperationalError | KeyError.

(** A call ends with a value or with an exception; either way the file
    is in some state afterwards. *)
Inductive outcome (A : Type) :=
| Ok (a : A) (d : db)
| Raise (e : exn) (d : db).
Arguments Ok {A} _ _.
Arguments Raise {A} _ _.

Definition M (A : Type) : Type := db -> outcome A.

Definition ret {A : Type} (a : A) : M A := fun d => Ok a d.

Definition bind {A B : Type} (m : M A) (k : A -> M B) : M B :=
  fun d => match m d with
           | Ok a d' => k a d'
           | Raise e d' => Raise e d'
           end.

Definition raise {A : Type} (e : exn) : M A := fun d => Raise e d.

Definition final {A : Type} (o : outcome A) : db :=
  match o with Ok _ d => d | Raise _ d => d end.

End Run.
Import Run.

Declare Scope run_scope.
Delimit Scope run_scope with run.
Notation "x <- m ;; k" := (bind m (fun x => k))
  (at level 61, m at next level, right associativity) : run_scope.
Notation "m ;; k" := (bind m (fun _ => k))
  (at level 61, right associativity) : run_scope.
Local Open Scope run_scope.

(* ================================================================= *)
(** ** DB helpers and core actions (app.py, lines 22-90) *)

(** Lines 63-68: one statement, committed at once. *)
Definition execute (q : statement) : M unit :=
  fun d => match sql_exec q d with
           | Some d' => Ok tt d'
           | None => Raise OperationalError d
           end.

(** Lines 22-55. *)
Definition init_db : M unit :=
  execute CREATE_members_IF_NOT_EXISTS ;;
  execute CREATE_attendance_IF_NOT_EXISTS ;;
  execute CREATE_prayers_IF_NOT_EXISTS.

(** Lines 71-75; joined is bound to date.today().isoformat(). *)
Definition add_member (name phone email role : string) (clk : clock)
  : M unit :=
  execute (INSERT_members name phone email role (today clk)).

(** Lines 77-81; the caller passes the ISO text of [attend_date]. *)
Definition add_attendance (member_id : Z) (attend_date : date) (present : bool)
    (note : string) : M unit :=
  execute (INSERT_attendance member_id attend_date (if present then 1 else 0)
             note).

(** Lines 83-87. *)
Definition add_prayer (requester content : string) (clk : clock) : M unit :=
  execute (INSERT_prayers requester content (today clk) "open").

(** Lines 89-90. *)
Definition update_prayer_status (prayer_id : Z) (status : string) : M unit :=
  execute (UPDATE_prayers_status status prayer_id).

(* ================================================================= *)
(** ** Queries and views (app.py, lines 57-61 and 94-101) *)

Module Views.

(** A row of the LEFT JOIN of attendance with members; [member_name] is
    NULL when no member has the id. *)
Record attendance_row := mkattendance_row {
  v_id : Z; v_member_id : Z; v_member_name : option string;
  v_attend_date : date; v_present : Z; v_note : string }.

Definition join_row (a : attendance_rec) (name : option string)
  : attendance_row :=
  mkattendance_row (a_id a) (a_member_id a) name (a_attend_date a)
    (a_present a) (a_note a).

(** attendance a LEFT JOIN members m ON a.member_id = m.id *)
Definition left_join (att : list attendance_rec) (ms : list member)
  : list attendance_row :=
  flat_map
    (fun a =>
       match filter (fun m => a_member_id a =? m_id m) ms with
       | [] => [join_row a None]
       | matching => map (fun m => join_row a (Some (m_name m))) matching
       end)
    att.

(** ORDER BY created DESC.  SQLite compares the stored texts byte by
    byte and its sorter keeps rows of equal key in scan (rowid) order:
    [r], scanned before the rows of [sorted], goes behind the rows of
    strictly greater key only. *)
Definition created_text (p : prayer) : string := isoformat (p_created p).

Fixpoint sorter_insert (r : prayer) (sorted : list prayer) : list prayer :=
  match sorted with
  | [] => [r]
  | x :: rest =>
      if String.ltb (created_text r) (created_text x)
      then x :: sorter_insert r rest
      else r :: sorted
  end.

Definition ORDER_BY_created_DESC (scan : list prayer) : list prayer :=
  fold_right sorter_insert [] scan.

(** The three SELECT statements of the script, each on the file;
    [None] is sqlite3.OperationalError (no such table). *)
Definition SELECT_members (d : db) : option (list member) :=
  option_map rows (members d).

Definition SELECT_attendance_LEFT_JOIN_members (d : db)
  : option (list attendance_row) :=
  match attendance d, members d with
  | Some a, Some m => Some (left_join (rows a) (rows m))
  | _, _ => None
  end.

Definition SELECT_prayers_ORDER_BY_created_DESC (d : db)
  : option (list prayer) :=
  option_map (fun t => ORDER_BY_created_DESC (rows t)) (prayers d).

End Views.
Import Views.

Definition run_query {A : Type} (q : db -> option A) : M A :=
  fun d => match q d with
           | Some df => Ok df d
           | None => Raise OperationalError d
           end.

Definition get_members_df : M (list member) := run_query SELECT_members.

Definition get_attendance_df : M (list attendance_row) :=
  run_query SELECT_attendance_LEFT_JOIN_members.

Definition get_prayers_df : M (list prayer) :=
  run_query SELECT_prayers_ORDER_BY_created_DESC.

(* ================================================================= *)
(** ** CSV export (app.py, lines 103-107) *)

Module Csv.

(** A value of a data frame: an integer, a text, or NULL. *)
Inductive cell := Int (z : Z) | Text (s : string) | Null.

(** A data frame as [to_csv] sees it: column labels and rows of cells. *)
Record frame := mkframe { columns : list string; data : list (list cell) }.

Definition members_frame (df : list member) : frame :=
  mkframe ["id"; "name"; "phone"; "email"; "role"; "joined"]
    (map (fun m => [Int (m_id m); Text (m_name m); Text (m_phone m);
                    Text (m_email m); Text (m_role m);
                    Text (isoformat (m_joined m))]) df).

Definition opt_text (o : option string) : cell :=
  match o with Some s => Text s | None => Null end.

Definition attendance_frame (df : list attendance_row) : frame :=
  mkframe ["id"; "member_id"; "member_name"; "attend_date"; "present"; "note"]
    (map (fun v => [Int (v_id v); Int (v_member_id v);
                    opt_text (v_member_name v);
                    Text (isoformat (v_attend_date v));
                    Int (v_present v); Text (v_note v)]) df).

Definition prayers_frame (df : list prayer) : frame :=
  mkframe ["id"; "requester"; "content"; "created"; "status"]
    (map (fun p => [Int (p_id p); Text (p_requester p); Text (p_content p);
                    Text (isoformat (p_created p)); Text (p_status p)]) df).

(** The text pandas hands to the csv writer: str() of an integer, the
    text itself, and the empty text (na_rep) for NULL. *)
Definition cell_text (c : cell) : string :=
  match c with
  | Int z => NilZero.string_of_int (Z.to_int z)
  | Text s => s
  | Null => ""
  end.

(** The dialect [to_csv] uses: comma, double quote, QUOTE_MINIMAL with
    doubled quotes, and os.linesep (a line feed) after each record. *)
Definition delimiter : ascii := ","%char.
Definition quotechar : ascii := "034"%char.
Definition lineterminator : string := String "010"%char EmptyString.

Fixpoint contains (c : ascii) (s : string) : bool :=
  match s with
  | EmptyString => false
  | String x s' => Ascii.eqb c x || contains c s'
  end.

Definition special (c : ascii) : bool :=
  Ascii.eqb c delimiter || Ascii.eqb c quotechar || contains c lineterminator.

Fixpoint needs_quotes (s : string) : bool :=
  match s with
  | EmptyString => false
  | String c s' => special c || needs_quotes s'
  end.

Fixpoint double_quotes (s : string) : string :=
  match s with
  | EmptyString => EmptyString
  | String c s' =>
      if Ascii.eqb c quotechar
      then String quotechar (String quotechar (double_quotes s'))
      else String c (double_quotes s')
  end.

Definition write_field (s : string) : string :=
  if needs_quotes s
  then String quotechar (double_quotes s ++ String quotechar EmptyString)
  else s.

Fixpoint join_fields (fields : list string) : string :=
  match fields with
  | [] => EmptyString
  | [f] => write_field f
  | f :: rest => write_field f ++ String delimiter (join_fields rest)
  end.

(** csv.writer.writerow; a record made of one empty field is written as
    a pair of quotes. *)
Definition writerow (fields : list string) : string :=
  match fields with
  | [EmptyString] => String quotechar (String quotechar lineterminator)
  | _ => join_fields fields ++ lineterminator
  end.

Fixpoint writerows (records : list (list string)) : string :=
  match records with
  | [] => EmptyString
  | r :: rest => writerow r ++ writerows rest
  end.

(** The table of texts a frame is written from: labels, then records. *)
Definition frame_texts (df : frame) : list (list string) :=
  columns df :: map (map cell_text) (data df).

(** [df.to_csv(index=False)]. *)
Definition to_csv (df : frame) : string := writerows (frame_texts df).

(** [csv_from_df(df).getvalue()]. *)
Definition csv_from_df (df : frame) : string := to_csv df.

End Csv.
Import Csv.

(** The reader that "parsed back" refers to. *)
Module CsvReader.

Inductive state := RowStart | FieldStart | Bare | Quoted | AfterQuote.

Definition push (c : ascii) (r : option (list (list string)))
  : option (list (list string)) :=
  match r with
  | Some ((f :: fs) :: rs) => Some ((String c f :: fs) :: rs)
  | _ => None
  end.

Definition next_field (r : option (list (list string)))
  : option (list (list string)) :=
  match r with
  | Some (fs :: rs) => Some ((EmptyString :: fs) :: rs)
  | _ => None
  end.

Definition next_record (r : option (list (list string)))
  : option (list (list string)) :=
  match r with
  | Some rs => Some ([EmptyString] :: rs)
  | None => None
  end.

Definition is_newline (c : ascii) : bool := Ascii.eqb c "010"%char.

(** Modelled from the spec: the repository has no CSV reader; "parsed back"
    is taken as a reader of the dialect that is written (RFC 4180 with a
    line feed as record end): fields separated by commas, a field in
    double quotes may hold commas, line feeds and doubled quotes, a quote
    inside a bare field is an error, the last record may lack its line
    feed.  The result is the table of texts, header first. *)
Fixpoint read (st : state) (s : string) : option (list (list string)) :=
  match s with
  | EmptyString =>
      match st with
      | RowStart => Some []
      | FieldStart | Bare | AfterQuote => Some [[EmptyString]]
      | Quoted => None
      end
  | String c s' =>
      match st with
      | RowStart | FieldStart =>
          if Ascii.eqb c quotechar then read Quoted s'
          else if Ascii.eqb c delimiter then next_field (read FieldStart s')
          else if is_newline c then next_record (read RowStart s')
          else push c (read Bare s')
      | Bare =>
          if Ascii.eqb c quotechar then None
          else if Ascii.eqb c delimiter then next_field (read FieldStart s')
          else if is_newline c then next_record (read RowStart s')
          else push c (read Bare s')
      | Quoted =>
          if Ascii.eqb c quotechar then read AfterQuote s'
          else push c (read Quoted s')
      | AfterQuote =>
          if Ascii.eqb c quotechar then push c (read Quoted s')
          else if Ascii.eqb c delimiter then next_field (read FieldStart s')
          else if is_newline c then next_record (read RowStart s')
          else None
      end
  end.

Definition parse_csv (s : string) : option (list (list string)) :=
  read RowStart s.

(** Put the text [f] in front of the first field of the first record. *)
Definition prepend (f : string) (r : option (list (list string)))
  : option (list (list string)) :=
  match r with
  | Some ((g :: fs) :: rs) => Some (((f ++ g)%string :: fs) :: rs)
  | _ => None
  end.

(** The characters that end a field. *)
Definition is_separator (c : ascii) : Prop :=
  c = delimiter \/ c = "010"%char.

(** The states in which a field may begin. *)
Definition at_field_start (st : state) : Prop :=
  st = RowStart \/ st = FieldStart.

End CsvReader.
Import CsvReader.

(* ================================================================= *)
(** ** Python text helpers used by the pages *)

Module PyStr.

(** [not s] for a text: true on the empty text only. *)
Definition py_not (s : string) : bool :=
  match s with EmptyString => true | _ => false end.

(** [str.isspace] on ASCII: TAB..CR, FS..US and the space. *)
Definition isspace (c : ascii) : bool :=
  let n := N_of_ascii c in
  ((9 <=? n) && (n <=? 13) || (28 <=? n) && (n <=? 32))%N.

Fixpoint lstrip (s : string) : string :=
  match s with
  | EmptyString => EmptyString
  | String c s' => if isspace c then lstrip s' else s
  end.

Fixpoint rstrip (s : string) : string :=
  match s with
  | EmptyString => EmptyString
  | String c s' =>
      match rstrip s' with
      | EmptyString => if isspace c then EmptyString else String c EmptyString
      | kept => String c kept
      end
  end.

(** [str.strip()] *)
Definition strip (s : string) : string := rstrip (lstrip s).

Definition upper_char (c : ascii) : ascii :=
  let n := N_of_ascii c in
  if ((97 <=? n) && (n <=? 122))%N then ascii_of_N (n - 32) else c.

(** [str.upper()]; the confirmation text is modelled over ASCII, other
    characters are kept as they are. *)
Fixpoint upper (s : string) : string :=
  match s with
  | EmptyString => EmptyString
  | String c s' => String (upper_char c) (upper s')
  end.

(** A text widget returns its [value=] default until the user edits it. *)
Definition text_input (value : string) (edited : option string) : string :=
  match edited with
  | Some s => s
  | None => value
  end.

End PyStr.
Import PyStr.

(* ================================================================= *)
(** ** The pages (app.py, lines 119-288) *)

Inductive notice :=
| warning (msg : string)
| success (msg : string)
| info (msg : string).

(** *** Vue d'ensemble: the 30-day rate and the chart *)

Module Overview.

Definition sum_present (l : list attendance_row) : Z :=
  fold_right (fun r acc => v_present r + acc) 0 l.

(** [df['present'].mean()] on a frame with at least one row. *)
Definition mean_present (l : list attendance_row) : Q :=
  inject_Z (sum_present l) / inject_Z (Z.of_nat (List.length l)).

(** attendance[attendance['attend_date'] >=
               (pd.Timestamp.today() - pd.Timedelta(days=30))] *)
Definition last_30 (clk : clock) (attendance : list attendance_row)
  : list attendance_row :=
  filter (fun r => to_datetime (v_attend_date r)
                     >=? Timestamp_today clk - Timedelta 30)
    attendance.

(** What the third metric shows: "N/A", or the rate that is then printed
    with no decimals. *)
Inductive metric := N_A | Percent (rate : Q).

(** Lines 130-142.  [pd.to_datetime] does not fail on the stored dates,
    so the except branch (also "N/A") is not taken. *)
Definition taux_de_presence_30j (clk : clock) (attendance : list attendance_row)
  : metric :=
  if (0 <? List.length attendance)%nat then
    let last_30 := last_30 clk attendance in
    if (0 <? List.length last_30)%nat
    then Percent (mean_present last_30 * 100)
    else N_A
  else N_A.

(** groupby('attend_date'): the distinct dates, in ascending order. *)
Fixpoint insert_key (d : date) (keys : list date) : list date :=
  match keys with
  | [] => [d]
  | k :: rest =>
      match date_compare d k with
      | Lt => d :: keys
      | Eq => keys
      | Gt => k :: insert_key d rest
      end
  end.

Definition group_keys (attendance : list attendance_row) : list date :=
  fold_right (fun r keys => insert_key (v_attend_date r) keys) [] attendance.

Definition group (d : date) (attendance : list attendance_row)
  : list attendance_row :=
  filter (fun r => date_eqb (v_attend_date r) d) attendance.

(** A row of [agg]: the date, the mean of present, and taux = mean * 100. *)
Record agg_row := mkagg { attend_date : date; present : Q; taux : Q }.

(** attendance.groupby('attend_date')['present'].mean().reset_index(),
    then agg['taux'] = agg['present'] * 100 (lines 150-151). *)
Definition agg (attendance : list attendance_row) : list agg_row :=
  map (fun d => let m := mean_present (group d attendance) in
                mkagg d m (m * 100))
    (group_keys attendance).

(** Lines 148-158: the chart's data, or the notice when there is none. *)
Definition attendance_chart (attendance : list attendance_row)
  : list agg_row + notice :=
  if (0 <? List.length attendance)%nat
  then inl (agg attendance)
  else inr (info "Aucune donnée de présence pour le moment.").

Definition vue_d_ensemble (clk : clock)
  : M (metric * (list agg_row + notice)) :=
  _ <- get_members_df ;;
  attendance <- get_attendance_df ;;
  _ <- get_prayers_df ;;
  ret (taux_de_presence_30j clk attendance, attendance_chart attendance).

End Overview.
Import Overview.

(** *** Membres: the form and the list *)

(** Lines 168-179. *)
Definition add_member_form (submitted : bool) (name phone email role : string)
    (clk : clock) : M (option notice) :=
  if submitted then
    if py_not name then ret (Some (warning "Le nom est requis."))
    else
      add_member name phone email role clk ;;
      ret (Some (success ("Membre '" ++ name ++ "' ajouté.")))
  else ret None.

(** Lines 168-189: the form, then the list with the text offered as
    membres.csv when there is at least one member. *)
Definition membres (submitted : bool) (name phone email role : string)
    (clk : clock) : M (option notice * option string) :=
  shown <- add_member_form submitted name phone email role clk ;;
  members <- get_members_df ;;
  if (0 <? List.length members)%nat
  then ret (shown, Some (csv_from_df (members_frame members)))
  else ret (shown, None).

(** *** Présences: the form *)

(** Lines 199-208; [choice] is the position of the selected option, the
    options being the members in table order. *)
Definition attendance_form (members : list member) (submit_att : bool)
    (choice : nat) (present : bool) (attend_date : date) (note : string)
  : M (option notice) :=
  if submit_att then
    match nth_error members choice with
    | Some r =>
        add_attendance (m_id r) attend_date present note ;;
        ret (Some (success "Présence enregistrée."))
    | None => raise KeyError
    end
  else ret None.

(** Lines 194-211: no form without members; after the form the history
    is loaded. *)
Definition presences (submit_att : bool) (choice : nat) (present : bool)
    (attend_date : date) (note : string) : M (option notice) :=
  members <- get_members_df ;;
  if (List.length members =? 0)%nat
  then ret (Some (info "Ajoute des membres avant d'enregistrer des présences."))
  else
    shown <- attendance_form members submit_att choice present attend_date
               note ;;
    _ <- get_attendance_df ;;
    ret shown.

(** *** Prière: the form and the status buttons *)

(** Lines 229-238; the requester box is created with value="Anonyme". *)
Definition prayer_form (sub : bool) (requester_edit : option string)
    (content : string) (clk : clock) : M (option notice) :=
  let requester := text_input "Anonyme" requester_edit in
  if sub then
    if py_not content
    then ret (Some (warning "La demande doit contenir un texte."))
    else
      add_prayer requester content clk ;;
      ret (Some (success "Demande de prière ajoutée."))
  else ret None.

Inductive button :=
| Marquer_repondu (id : Z)
| Marquer_en_priere (id : Z).

Definition pressed_repondu (b : option button) (id : Z) : bool :=
  match b with Some (Marquer_repondu i) => i =? id | _ => false end.

Definition pressed_en_priere (b : option button) (id : Z) : bool :=
  match b with Some (Marquer_en_priere i) => i =? id | _ => false end.

(** Lines 245-254: the loop over the listed prayers; a pressed button
    updates its row and the script reruns, which ends the loop. *)
Fixpoint prayer_buttons (pressed : option button) (listed : list prayer)
  : M unit :=
  match listed with
  | [] => ret tt
  | row :: rest =>
      if pressed_repondu pressed (p_id row)
      then update_prayer_status (p_id row) "answered"
      else if pressed_en_priere pressed (p_id row)
      then update_prayer_status (p_id row) "open"
      else prayer_buttons pressed rest
  end.

Definition prayer_list (pressed : option button) : M unit :=
  prayers <- get_prayers_df ;;
  if (0 <? List.length prayers)%nat
  then prayer_buttons pressed prayers
  else ret tt.

(** *** Paramètres / Export: the archive and the reset *)

(** A zip archive: its entries, name and payload, in the order written. *)
Definition zip_archive : Type := list (string * string).

Definition writestr (name payload : string) (z : zip_archive) : zip_archive :=
  z ++ [(name, payload)].

(** Lines 262-275: the download offered after the button is pressed. *)
Definition export_zip (clicked : bool) : M (option zip_archive) :=
  members <- get_members_df ;;
  attendance <- get_attendance_df ;;
  prayers <- get_prayers_df ;;
  if clicked then
    let z := [] in
    let z := writestr "membres.csv" (to_csv (members_frame members)) z in
    let z := writestr "presences.csv"
               (to_csv (attendance_frame attendance)) z in
    let z := writestr "prayers.csv" (to_csv (prayers_frame prayers)) z in
    ret (Some z)
  else ret None.

(** confirm.strip().upper() == "CONFIRMER" *)
Definition confirmed (confirm : string) : bool :=
  String.eqb (upper (strip confirm)) "CONFIRMER".

(** Lines 279-288. *)
Definition reset_section (clicked : bool) (confirm : string)
  : M (option notice) :=
  if clicked then
    if confirmed confirm then
      execute DROP_attendance_IF_EXISTS ;;
      execute DROP_prayers_IF_EXISTS ;;
      execute DROP_members_IF_EXISTS ;;
      init_db ;;
      ret (Some (success "Base réinitialisée."))
    else ret (Some (warning "Action non confirmée."))
  else ret None.

(** *** One run of the script *)

Inductive page :=
| Vue_d_ensemble
| Membres (submitted : bool) (name phone email role : string)
| Presences (submit_att : bool) (choice : nat) (present : bool)
    (attend_date : date) (note : string)
| Priere (sub : bool) (requester_edit : option string) (content : string)
    (pressed : option button)
| Parametres_Export (export_clicked reset_clicked : bool) (confirm : string).

(** Line 111 and the page chosen in the sidebar. *)
Definition script (clk : clock) (p : page) : M unit :=
  init_db ;;
  match p with
  | Vue_d_ensemble => vue_d_ensemble clk ;; ret tt
  | Membres submitted name phone email role =>
      membres submitted name phone email role clk ;; ret tt
  | Presences submit_att choice present attend_date note =>
      presences submit_att choice present attend_date note ;; ret tt
  | Priere sub requester_edit content pressed =>
      prayer_form sub requester_edit content clk ;;
      prayer_list pressed
  | Parametres_Export export_clicked reset_clicked confirm =>
      export_zip export_clicked ;;
      reset_section reset_clicked confirm ;; ret tt
  end.

(** The states of the file the program can produce: it starts without
    tables, and every run of the script leaves a next state, whether
    the run ends normally or raises. *)
Inductive reachable : db -> Prop :=
| reach_start : reachable no_tables
| reach_run (d : db) (clk : clock) (p : page) :
    reachable d -> valid_clock clk = true ->
    reachable (final (script clk p d)).

(** The spec's wording of the confirmation: trim the whitespace at both
    ends, then compare with the expected word ignoring case. *)
Module ResetSpec.

Definition same_letter (a b : ascii) : bool :=
  Ascii.eqb (upper_char a) (upper_char b).

Fixpoint equal_ignoring_case (a b : string) : bool :=
  match a, b with
  | EmptyString, EmptyString => true
  | String x a', String y b' => same_letter x y && equal_ignoring_case a' b'
  | _, _ => false
  end.

Fixpoint rev_string (acc s : string) : string :=
  match s with
  | EmptyString => acc
  | String c s' => rev_string (String c acc) s'
  end.

Definition mirror (s : string) : string := rev_string EmptyString s.

Definition trim (s : string) : string :=
  mirror (lstrip (mirror (lstrip s))).

Definition token_accepted (token : string) : bool :=
  equal_ignoring_case (trim token) "CONFIRMER".

End ResetSpec.
Import ResetSpec.

(** A database with its three tables, as [init_db] leaves it. *)
Definition has_tables (d : db) : Prop :=
  members d <> None /\ attendance d <> None /\ prayers d <> None.


(** The order of the prayers view: [a] may stand before [b] when [a] was
    created on the same day as [b] or later. *)
Definition not_older (a b : prayer) : Prop :=
  date_leb (p_created b) (p_created a) = true.

Definition created_on (k : date) (p : prayer) : bool :=
  date_eqb (p_created p) k.

Definition valid_created (p : prayer) : Prop :=
  valid_date (p_created p) = true.

(** The invariant of the status column. *)
Definition open_or_answered (p : prayer) : Prop :=
  p_status p = "open" \/ p_status p = "answered".

Definition statuses_ok (d : db) : Prop :=
  forall t, prayers d = Some t -> Forall open_or_answered (rows t).


(** The statements a run of the script can send when the clock reads
    [clk]: the values the pages bind to the date and status columns. *)
Definition issued (clk : clock) (q : statement) : Prop :=
  match q with
  | INSERT_members _ _ _ _ joined => joined = today clk
  | INSERT_prayers _ _ created status =>
      created = today clk /\ status = "open"
  | UPDATE_prayers_status status _ => status = "answered" \/ status = "open"
  | _ => True
  end.

(** A computation keeps a property of the file, however it ends. *)
Definition preserves {A : Type} (I : db -> Prop) (m : M A) : Prop :=
  forall d, I d -> I (final (m d)).

(** Equality of two results of a comparison, as a test. *)
Definition comparison_eqb (a b : comparison) : bool :=
  match a, b with
  | Eq, Eq | Lt, Lt | Gt, Gt => true
  | _, _ => false
  end.

(** The six texts of a row of the members view, in column order. *)
Definition member_texts (m : member) : list string :=
  [NilZero.string_of_int (Z.to_int (m_id m)); m_name m; m_phone m;
   m_email m; m_role m; isoformat (m_joined m)].

Definition valid_joined (m : member) : Prop :=
  valid_date (m_joined m) = true.

(** The order of the chart's rows: strictly earlier dates first. *)
Definition earlier (a b : date) : Prop := date_ltb a b = true.

(** The window as the spec words it: from [days] days before the
    current moment, included, up to the current moment. *)
Definition within_trailing_days (days : Z) (clk : clock) (r : attendance_row)
  : bool :=
  (Timestamp_today clk - Timedelta days <=? to_datetime (v_attend_date r))
  && (to_datetime (v_attend_date r) <=? Timestamp_today clk).

(** Concrete values on which the statements below are exercised. *)
Module Samples.

Definition noon : Z := 12 * 3600 * 1000000000.

Definition clk0 : clock := mkclock (mkdate 2024 3 15) noon.

Definition two_prayers : table prayer :=
  mktable [mkprayer 1 "Anonyme" "Paix" (mkdate 2024 3 14) "open";
           mkprayer 2 "Ruth" "Guérison" (mkdate 2024 3 15) "open"] 2.

Definition prayers_db : db :=
  mkdb (Some empty_table) (Some empty_table) (Some two_prayers).

Definition after_one_prayer : db :=
  final (script clk0 (Priere true None "Paix" None) no_tables).

Definition after_answer : db :=
  final (script clk0 (Priere false None "" (Some (Marquer_repondu 1)))
           after_one_prayer).

Definition four_prayers : table prayer :=
  mktable [mkprayer 1 "Anonyme" "Paix" (mkdate 2024 3 14) "open";
           mkprayer 2 "Ruth" "Guérison" (mkdate 2024 3 15) "open";
           mkprayer 3 "Noé" "Voyage" (mkdate 2024 3 14) "answered";
           mkprayer 4 "Anne" "Examen" (mkdate 2024 3 15) "open"] 4.

Definition four_prayers_db : db :=
  mkdb (Some empty_table) (Some empty_table) (Some four_prayers).

(** Alice (Leader) and Bob (Membre) join; on the 14th Alice is recorded
    present and Bob absent. *)
Definition alice_joins : db :=
  final (script clk0 (Membres true "Alice" "" "" "Leader") no_tables).

Definition alice_bob : db :=
  let d :=
    final (script clk0 (Membres true "Bob" "" "" "Membre") alice_joins) in
  let d :=
    final (script clk0 (Presences true 0 true (mkdate 2024 3 14) "") d) in
  final (script clk0 (Presences true 1 false (mkdate 2024 3 14) "") d).

(** Alice joins; her presence is recorded for the next day. *)
Definition tomorrow_only : db :=
  final (script clk0 (Presences true 0 true (mkdate 2024 3 16) "") alice_joins).

End Samples.

(* ================================================================= *)
(** ** Further parts of the pages *)

Module Display.

(** Line 128: len(prayers[prayers['status']=='open']). *)
Definition prieres_ouvertes (prayers : list prayer) : nat :=
  List.length (filter (fun p => String.eqb (p_status p) "open") prayers).


(** Line 200: the option shown for a member, f"{r['id']} - {r['name']}". *)
Definition label (r : member) : string :=
  NilZero.string_of_int (Z.to_int (m_id r)) ++ " - " ++ m_name r.

(** A Python dict as the list of its assignments, in the order they are
    made; a later assignment to a key replaces the earlier value. *)
Definition dict : Type := list (string * Z).

Fixpoint dict_get (key : string) (entries : dict) : option Z :=
  match entries with
  | [] => None
  | (k, v) :: rest =>
      match dict_get key rest with
      | Some later => Some later
      | None => if String.eqb key k then Some v else None
      end
  end.

(** Line 200: {label: id for each member}, in table order. *)
Definition member_map (members : list member) : dict :=
  map (fun r => (label r, m_id r)) members.

(** list(member_map.keys()): each key once, where it first appears. *)
Fixpoint dict_keys (entries : dict) : list string :=
  match entries with
  | [] => []
  | (k, _) :: rest =>
      k :: filter (fun k' => negb (String.eqb k' k)) (dict_keys rest)
  end.

(** Lines 201 and 207: the option at position [choice], looked up in the
    dict; a missing key is KeyError. *)
Definition chosen_member_id (members : list member) (choice : nat)
  : option Z :=
  match nth_error (dict_keys (member_map members)) choice with
  | Some member_choice => dict_get member_choice (member_map members)
  | None => None
  end.

End Display.
Import Display.

(** *** Présences: the history (lines 211-223) *)

Module History.







End History.
Import History.

(** The part of the script after line 111, on the page [p]. *)
Definition page_body (clk : clock) (p : page) : M unit :=
  match p with
  | Vue_d_ensemble => vue_d_ensemble clk ;; ret tt
  | Membres submitted name phone email role =>
      membres submitted name phone email role clk ;; ret tt
  | Presences submit_att choice present attend_date note =>
      presences submit_att choice present attend_date note ;; ret tt
  | Priere sub requester_edit content pressed =>
      prayer_form sub requester_edit content clk ;;
      prayer_list pressed
  | Parametres_Export export_clicked reset_clicked confirm =>
      export_zip export_clicked ;;
      reset_section reset_clicked confirm ;; ret tt
  end.

(** *** What a run can write *)

(** The statements a run of the script on page [p] can send when the
    clock reads [clk], with the values the page binds. *)
Definition sent (clk : clock) (p : page) (q : statement) : Prop :=
  match q with
  | CREATE_members_IF_NOT_EXISTS
  | CREATE_attendance_IF_NOT_EXISTS
  | CREATE_prayers_IF_NOT_EXISTS => True
  | INSERT_members name phone email role joined =>
      p = Membres true name phone email role
      /\ name <> EmptyString /\ joined = today clk
  | INSERT_attendance _ attend_date present note =>
      exists choice flag,
        p = Presences true choice flag attend_date note
        /\ present = (if flag then 1 else 0)
  | INSERT_prayers requester content created status =>
      exists edit pressed,
        p = Priere true edit content pressed
        /\ requester = text_input "Anonyme" edit
        /\ content <> EmptyString /\ created = today clk /\ status = "open"
  | UPDATE_prayers_status status id =>
      exists sub edit content,
        (p = Priere sub edit content (Some (Marquer_repondu id))
         /\ status = "answered")
        \/ (p = Priere sub edit content (Some (Marquer_en_priere id))
            /\ status = "open")
  | DROP_attendance_IF_EXISTS
  | DROP_prayers_IF_EXISTS
  | DROP_members_IF_EXISTS =>
      exists export_clicked confirm,
        p = Parametres_Export export_clicked true confirm
        /\ confirmed confirm = true
  end.


(** The runs that reset the database. *)
Definition resets (p : page) : bool :=
  match p with
  | Parametres_Export _ reset_clicked confirm =>
      reset_clicked && confirmed confirm
  | _ => false
  end.

(** *** Invariants of the tables *)

(** Rowids as AUTOINCREMENT hands them out: positive, growing along the
    table, none above the sequence counter. *)
Definition ids_ascending {R : Type} (rowid : R -> Z) (t : table R) : Prop :=
  StronglySorted Z.lt (map rowid (rows t))
  /\ Forall (fun i => 1 <= i <= seq t) (map rowid (rows t)).

Definition table_ok {R : Type} (rowid : R -> Z) (o : option (table R)) : Prop :=
  forall t, o = Some t -> 0 <= seq t /\ ids_ascending rowid t.

Definition ids_ok (d : db) : Prop :=
  table_ok m_id (members d) /\ table_ok a_id (attendance d)
  /\ table_ok p_id (prayers d).

(** The present column holds 0 or 1. *)
Definition flag (r : attendance_rec) : Prop :=
  a_present r = 0 \/ a_present r = 1.

Definition flags_ok (d : db) : Prop :=
  forall t, attendance d = Some t -> Forall flag (rows t).

Definition view_flag (v : attendance_row) : Prop :=
  v_present v = 0 \/ v_present v = 1.

(** Every attendance record points to a member of the members table;
    while the members table is dropped there is no record. *)
Definition references_ok (d : db) : Prop :=
  forall a, attendance d = Some a ->
            match members d with
            | Some m => Forall (fun r => In (a_member_id r)
                                           (map m_id (rows m)))
                          (rows a)
            | None => rows a = []
            end.

(** A row of the attendance view that carries a member's name. *)
Definition named (v : attendance_row) : Prop :=
  exists name, v_member_name v = Some name.





(** The view of the join when member ids are a key: one row per record,
    with the name of the member found, if any. *)
Definition member_name_of (ms : list member) (a : attendance_rec)
  : option string :=
  option_map m_name (find (fun m => a_member_id a =? m_id m) ms).

(** More values on which the statements below are exercised. *)
Module MoreSamples.

Definition alice : member :=
  mkmember 1 "Alice" "" "" "Leader" (mkdate 2024 3 15).

Definition bob : member :=
  mkmember 2 "Bob" "" "" "Membre" (mkdate 2024 3 15).

Definition two_members : table member := mktable [alice; bob] 2.

Definition one_record : table attendance_rec :=
  mktable [mkattendance 1 1 (mkdate 2024 3 14) 1 ""] 1.

Definition members_db : db :=
  mkdb (Some two_members) (Some one_record) (Some empty_table).

End MoreSamples.

(* ================================================================= *)
(** * Properties *)

(** ** The monad and the statements *)

Section RunFacts.

Context {A B : Type}.

Lemma bind_Ok (m : M A) (k : A -> M B) (d d' : db) (a : A) :
  m d = Ok a d' -> bind m k d = k a d'.
Proof. unfold bind; intros ->; reflexivity. Qed.


End RunFacts.

Lemma db_eta (d : db) : mkdb (members d) (attendance d) (prayers d) = d.
Proof. destruct d; reflexivity. Qed.

Lemma table_eta {R : Type} (t : table R) : mktable (rows t) (seq t) = t.
Proof. destruct t; reflexivity. Qed.

Lemma init_db_Ok (d : db) :
  init_db d =
  Ok tt (mkdb (or_create (members d)) (or_create (attendance d))
           (or_create (prayers d))).
Proof. reflexivity. Qed.

Lemma or_create_Some {R : Type} (o : option (table R)) : or_create o <> None.
Proof. destruct o; discriminate. Qed.

Lemma or_create_id {R : Type} (o : option (table R)) :
  o <> None -> or_create o = o.
Proof. destruct o; [reflexivity | congruence]. Qed.

Lemma init_db_has_tables (d : db) : has_tables (final (init_db d)).
Proof.
  rewrite init_db_Ok; cbn; repeat split; apply or_create_Some.
Qed.

(** [init_db] on a database that has its tables changes nothing. *)
Lemma init_db_idempotent (d : db) : has_tables d -> init_db d = Ok tt d.
Proof.
  intros (Hm & Ha & Hp). rewrite init_db_Ok.
  rewrite !or_create_id by assumption. now rewrite db_eta.
Qed.

Lemma max_rowid_bound (ids : list Z) (x : Z) : In x ids -> x <= max_rowid ids.
Proof.
  induction ids as [|y ids IH]; cbn; intros [].
  - subst; lia.
  - specialize (IH H). unfold max_rowid in IH. lia.
Qed.

(** The id AUTOINCREMENT gives is not in the table. *)
Lemma next_rowid_fresh {R : Type} (rowid : R -> Z) (t : table R) :
  ~ In (next_rowid rowid t) (map rowid (rows t)).
Proof.
  unfold next_rowid. intros Hin. apply max_rowid_bound in Hin. lia.
Qed.

(** ** Membres *)

Lemma py_not_true (s : string) : py_not s = true <-> s = EmptyString.
Proof. destruct s; cbn; split; congruence. Qed.

Lemma py_not_false (s : string) : py_not s = false <-> s <> EmptyString.
Proof. destruct s; cbn; split; congruence. Qed.

Lemma add_member_Ok (name phone email role : string) (clk : clock) (d : db)
    (t : table member) :
  members d = Some t ->
  add_member name phone email role clk d =
  Ok tt (mkdb
           (Some (mktable
                    (rows t ++ [mkmember (next_rowid m_id t) name phone email
                                  role (today clk)])
                    (next_rowid m_id t)))
           (attendance d) (prayers d)).
Proof.
  intros Hm. unfold add_member, execute; cbn. now rewrite Hm.
Qed.

(** C1.  The member form with an empty name warns and leaves the file as
    it is: nothing is inserted.  With a non-empty name it adds exactly one
    row at the end of the members table, carrying the submitted values, a
    fresh id and the date of the call as [joined]; the other two tables
    are not touched. *)
Theorem add_member_form_rejects_empty_name_else_inserts_one
    (name phone email role : string) (clk : clock) (d : db) (t : table member) :
  members d = Some t ->
  add_member_form true EmptyString phone email role clk d
    = Ok (Some (warning "Le nom est requis.")) d
  /\ (name <> EmptyString ->
      exists d' t',
        add_member_form true name phone email role clk d
          = Ok (Some (success ("Membre '" ++ name ++ "' ajouté."))) d'
        /\ members d' = Some t'
        /\ rows t' = rows t ++ [mkmember (next_rowid m_id t) name phone email
                                  role (today clk)]
        /\ List.length (rows t') = S (List.length (rows t))
        /\ ~ In (next_rowid m_id t) (map m_id (rows t))
        /\ attendance d' = attendance d
        /\ prayers d' = prayers d).
Proof.
  intros Hm. split; [reflexivity|].
  intros Hname. apply py_not_false in Hname.
  unfold add_member_form. rewrite Hname.
  erewrite bind_Ok by (apply add_member_Ok; eassumption).
  eexists; eexists. split; [reflexivity|]. cbn.
  split; [reflexivity|]. split; [reflexivity|].
  split. { cbn [rows]. rewrite length_app; cbn; lia. }
  split; [apply next_rowid_fresh | split; reflexivity].
Qed.

Lemma add_member_form_rejects_empty_name_else_inserts_one_witness :
  members empty_tables = Some empty_table
  /\ "Alice" <> EmptyString
  /\ exists d' t',
       add_member_form true "Alice" "0601" "" "Leader" Samples.clk0
         empty_tables
         = Ok (Some (success "Membre 'Alice' ajouté.")) d'
       /\ members d' = Some t'
       /\ rows t' = [mkmember 1 "Alice" "0601" "" "Leader" (mkdate 2024 3 15)].
Proof.
  split; [reflexivity|]. split; [discriminate|].
  destruct (add_member_form_rejects_empty_name_else_inserts_one
              "Alice" "0601" "" "Leader" Samples.clk0 empty_tables
              empty_table eq_refl) as [_ H].
  destruct (H ltac:(discriminate)) as (d' & t' & H1 & H2 & H3 & _).
  exists d', t'. repeat split; assumption.
Defined.

(** ** Prière: the form *)

Lemma add_prayer_Ok (requester content : string) (clk : clock) (d : db)
    (t : table prayer) :
  prayers d = Some t ->
  add_prayer requester content clk d =
  Ok tt (mkdb (members d) (attendance d)
           (Some (mktable
                    (rows t ++ [mkprayer (next_rowid p_id t) requester content
                                  (today clk) "open"])
                    (next_rowid p_id t)))).
Proof.
  intros Hp. unfold add_prayer, execute; cbn. now rewrite Hp.
Qed.

(** C2, as the claim states it, fails: a requester box that the user has
    emptied is stored as the empty text, not as "Anonymous". *)
Lemma prayer_form_blank_requester_is_stored_blank :
  let d' := final (prayer_form true (Some EmptyString) "Paix" Samples.clk0
                     empty_tables) in
  prayers d' = Some (mktable [mkprayer 1 "" "Paix" (mkdate 2024 3 15) "open"] 1)
  /\ ~ (exists t, prayers d' = Some t
                  /\ Forall (fun p => p_requester p = "Anonymous") (rows t)).
Proof.
  split; [reflexivity|].
  intros (t & Ht & Hall). cbn in Ht. injection Ht as <-.
  inversion Hall as [|p l Hp _]; subst. cbn in Hp. discriminate.
Qed.

(** C2, amended.  The prayer form with an empty content warns and leaves
    the file as it is.  With a non-empty content it adds exactly one row at
    the end of the prayers table whose status is "open", whose created
    date is the date of the call, and whose requester is the text of the
    requester box as submitted: the pre-filled "Anonyme" when the box was
    left alone, the typed text otherwise, the empty text included. *)
Theorem prayer_form_rejects_empty_content_else_inserts_open
    (requester_edit : option string) (content : string) (clk : clock) (d : db)
    (t : table prayer) :
  prayers d = Some t ->
  prayer_form true requester_edit EmptyString clk d
    = Ok (Some (warning "La demande doit contenir un texte.")) d
  /\ (content <> EmptyString ->
      exists d' t',
        prayer_form true requester_edit content clk d
          = Ok (Some (success "Demande de prière ajoutée.")) d'
        /\ prayers d' = Some t'
        /\ rows t' =
             rows t ++
             [mkprayer (next_rowid p_id t)
                (match requester_edit with
                 | Some typed => typed
                 | None => "Anonyme"
                 end)
                content (today clk) "open"]
        /\ members d' = members d
        /\ attendance d' = attendance d).
Proof.
  intros Hp. split; [reflexivity|].
  intros Hc. apply py_not_false in Hc.
  unfold prayer_form. rewrite Hc.
  erewrite bind_Ok by (apply add_prayer_Ok; eassumption).
  eexists; eexists. split; [reflexivity|]. cbn.
  repeat split; destruct requester_edit; reflexivity.
Qed.

Lemma prayer_form_rejects_empty_content_else_inserts_open_witness :
  prayers Samples.prayers_db = Some Samples.two_prayers
  /\ "Paix" <> EmptyString
  /\ exists d' t',
       prayer_form true (Some EmptyString) "Paix" Samples.clk0
         Samples.prayers_db
         = Ok (Some (success "Demande de prière ajoutée.")) d'
       /\ prayers d' = Some t'
       /\ rows t' = rows Samples.two_prayers
                    ++ [mkprayer 3 "" "Paix" (mkdate 2024 3 15) "open"].
Proof.
  split; [reflexivity|]. split; [discriminate|].
  destruct (prayer_form_rejects_empty_content_else_inserts_open
              (Some EmptyString) "Paix" Samples.clk0 Samples.prayers_db
              Samples.two_prayers eq_refl) as [_ H].
  destruct (H ltac:(discriminate)) as (d' & t' & H1 & H2 & H3 & _).
  exists d', t'. repeat split; assumption.
Defined.

(** ** Prière: the status update *)

Lemma set_status_other (status : string) (id : Z) (p : prayer) :
  p_id p <> id -> set_status status id p = p.
Proof.
  intros H. unfold set_status. destruct (Z.eqb_spec (p_id p) id); congruence.
Qed.

Lemma set_status_same (status : string) (p : prayer) :
  set_status status (p_id p) p
  = mkprayer (p_id p) (p_requester p) (p_content p) (p_created p) status.
Proof. unfold set_status. now rewrite Z.eqb_refl. Qed.

Lemma map_set_status_absent (status : string) (id : Z) (l : list prayer) :
  ~ In id (map p_id l) -> map (set_status status id) l = l.
Proof.
  induction l as [|p l IH]; cbn; intros H; [reflexivity|].
  rewrite set_status_other by tauto. f_equal. apply IH. tauto.
Qed.

Lemma update_prayer_status_Ok (id : Z) (status : string) (d : db)
    (t : table prayer) :
  prayers d = Some t ->
  update_prayer_status id status d =
  Ok tt (mkdb (members d) (attendance d)
           (Some (mktable (map (set_status status id) (rows t)) (seq t)))).
Proof.
  intros Hp. unfold update_prayer_status, execute; cbn. now rewrite Hp.
Qed.

(** C5.  On a prayers table (ids are its primary key), updating the
    status of an id the table does not hold returns normally and leaves
    the file exactly as it was.  Updating an id the table holds returns
    normally and replaces the status of that one row: the rows before and
    after it, its other columns, the sequence counter and the other two
    tables stay as they were. *)
Theorem update_prayer_status_touches_only_that_row
    (id : Z) (status : string) (d : db) (t : table prayer) :
  prayers d = Some t ->
  NoDup (map p_id (rows t)) ->
  (~ In id (map p_id (rows t)) -> update_prayer_status id status d = Ok tt d)
  /\ (forall before r after,
        rows t = before ++ r :: after ->
        p_id r = id ->
        update_prayer_status id status d =
        Ok tt (mkdb (members d) (attendance d)
                 (Some (mktable
                          (before
                           ++ mkprayer (p_id r) (p_requester r) (p_content r)
                                (p_created r) status
                           :: after)
                          (seq t))))).
Proof.
  intros Hp Hnd. split.
  - intros Hnot. rewrite (update_prayer_status_Ok _ _ _ _ Hp).
    rewrite map_set_status_absent by assumption.
    rewrite table_eta, <- Hp. now rewrite db_eta.
  - intros before r after Hrows Hid.
    rewrite (update_prayer_status_Ok _ _ _ _ Hp). do 4 f_equal.
    rewrite Hrows in Hnd |- *.
    rewrite map_app in Hnd. cbn in Hnd.
    apply NoDup_remove_2 in Hnd. rewrite in_app_iff in Hnd.
    rewrite map_app; cbn. subst id.
    rewrite set_status_same.
    rewrite !map_set_status_absent by tauto. reflexivity.
Qed.

Lemma update_prayer_status_touches_only_that_row_witness :
  prayers Samples.prayers_db = Some Samples.two_prayers
  /\ NoDup (map p_id (rows Samples.two_prayers))
  /\ ~ In 7 (map p_id (rows Samples.two_prayers))
  /\ update_prayer_status 7 "answered" Samples.prayers_db
     = Ok tt Samples.prayers_db
  /\ update_prayer_status 2 "answered" Samples.prayers_db
     = Ok tt (mkdb (Some empty_table) (Some empty_table)
                (Some (mktable
                         [mkprayer 1 "Anonyme" "Paix" (mkdate 2024 3 14) "open";
                          mkprayer 2 "Ruth" "Guérison" (mkdate 2024 3 15)
                            "answered"] 2))).
Proof.
  assert (Hnd : NoDup (map p_id (rows Samples.two_prayers))).
  { cbn. repeat constructor; cbn; intuition discriminate. }
  assert (Hnot : ~ In 7 (map p_id (rows Samples.two_prayers))).
  { cbn. intuition discriminate. }
  split; [reflexivity|]. split; [exact Hnd|]. split; [exact Hnot|].
  destruct (update_prayer_status_touches_only_that_row
              7 "answered" Samples.prayers_db Samples.two_prayers eq_refl Hnd)
    as [Habsent _].
  destruct (update_prayer_status_touches_only_that_row
              2 "answered" Samples.prayers_db Samples.two_prayers eq_refl Hnd)
    as [_ Hpresent].
  split; [exact (Habsent Hnot)|].
  exact (Hpresent
           [mkprayer 1 "Anonyme" "Paix" (mkdate 2024 3 14) "open"]
           (mkprayer 2 "Ruth" "Guérison" (mkdate 2024 3 15) "open")
           [] eq_refl eq_refl).
Defined.

(** ** Paramètres / Export: the archive *)

Lemma get_members_df_Ok (d : db) (m : table member) :
  members d = Some m -> get_members_df d = Ok (rows m) d.
Proof.
  intros H. unfold get_members_df, run_query, SELECT_members. now rewrite H.
Qed.

Lemma get_attendance_df_Ok (d : db) (a : table attendance_rec)
    (m : table member) :
  attendance d = Some a -> members d = Some m ->
  get_attendance_df d = Ok (left_join (rows a) (rows m)) d.
Proof.
  intros Ha Hm.
  unfold get_attendance_df, run_query, SELECT_attendance_LEFT_JOIN_members.
  now rewrite Ha, Hm.
Qed.

Lemma get_prayers_df_Ok (d : db) (p : table prayer) :
  prayers d = Some p ->
  get_prayers_df d = Ok (ORDER_BY_created_DESC (rows p)) d.
Proof.
  intros H.
  unfold get_prayers_df, run_query, SELECT_prayers_ORDER_BY_created_DESC.
  now rewrite H.
Qed.





(** ** Paramètres / Export: the reset *)

Section StringFacts.

Local Open Scope string_scope.

Lemma append_assoc (a b c : string) : (a ++ b) ++ c = a ++ (b ++ c).
Proof. induction a as [|x a IH]; cbn; [reflexivity | now rewrite IH]. Qed.

Lemma append_empty_r (a : string) : a ++ EmptyString = a.
Proof. induction a as [|x a IH]; cbn; [reflexivity | now rewrite IH]. Qed.

End StringFacts.

Section StripFacts.

Local Open Scope string_scope.











End StripFacts.


Example token_accepted_examples :
  token_accepted "CONFIRMER" = true
  /\ token_accepted "  Confirmer " = true
  /\ token_accepted "" = false
  /\ token_accepted "CONFIRME" = false
  /\ token_accepted "CON FIRMER" = false.
Proof. repeat split; reflexivity. Qed.

(** ** The status column over the runs of the script *)

Section Preservation.

Variable I : db -> Prop.

Lemma preserves_ret {A : Type} (a : A) : preserves I (ret a).
Proof. intros d H; exact H. Qed.

Lemma preserves_raise {A : Type} (e : exn) : preserves I (@raise A e).
Proof. intros d H; exact H. Qed.

Lemma preserves_bind {A B : Type} (m : M A) (k : A -> M B) :
  preserves I m -> (forall a, preserves I (k a)) -> preserves I (bind m k).
Proof.
  intros Hm Hk d Hd. unfold bind. specialize (Hm d Hd).
  destruct (m d) as [a d'|e d']; cbn in *; [apply Hk; exact Hm | exact Hm].
Qed.

Lemma preserves_run_query {A : Type} (q : db -> option A) :
  preserves I (run_query q).
Proof.
  intros d Hd. unfold run_query. destruct (q d); exact Hd.
Qed.

Lemma preserves_execute (q : statement) :
  (forall d d', I d -> sql_exec q d = Some d' -> I d') ->
  preserves I (execute q).
Proof.
  intros Hq d Hd. unfold execute.
  destruct (sql_exec q d) as [d'|] eqn:E; cbn; eauto.
Qed.

End Preservation.

Lemma Forall_open_or_answered_set_status (status : string) (id : Z)
    (l : list prayer) :
  status = "open" \/ status = "answered" ->
  Forall open_or_answered l ->
  Forall open_or_answered (map (set_status status id) l).
Proof.
  intros Hs Hl. induction Hl as [|p l Hp _ IH]; cbn; constructor; [|exact IH].
  unfold set_status. destruct (p_id p =? id); [exact Hs | exact Hp].
Qed.

Lemma sql_exec_statuses_ok (clk : clock) (q : statement) (d d' : db) :
  issued clk q -> statuses_ok d -> sql_exec q d = Some d' ->
  statuses_ok d'.
Proof.
  intros Hq Hd Hex t Ht.
  destruct q; cbn in Hex, Hq;
    try (injection Hex as <-; cbn in Ht; try discriminate; auto; fail).
  - (* CREATE prayers *)
    injection Hex as <-. cbn in Ht.
    destruct (prayers d) as [t0|] eqn:E; cbn in Ht; injection Ht as <-.
    + exact (Hd _ E).
    + constructor.
  - (* INSERT members *)
    destruct (members d); [|discriminate]. injection Hex as <-. auto.
  - (* INSERT attendance *)
    destruct (attendance d); [|discriminate]. injection Hex as <-. auto.
  - (* INSERT prayers *)
    destruct (prayers d) as [t0|] eqn:E; [|discriminate].
    injection Hex as <-. cbn in Ht. injection Ht as <-. cbn.
    apply Forall_app. split; [exact (Hd _ E)|].
    constructor; [left; apply Hq | constructor].
  - (* UPDATE prayers *)
    destruct (prayers d) as [t0|] eqn:E; [|discriminate].
    injection Hex as <-. cbn in Ht. injection Ht as <-. cbn.
    apply Forall_open_or_answered_set_status; [tauto|].
    exact (Hd _ E).
Qed.

Lemma map_p_id_set_status (status : string) (id : Z) (l : list prayer) :
  map p_id (map (set_status status id) l) = map p_id l.
Proof.
  rewrite map_map. apply map_ext. intros p. unfold set_status.
  destruct (p_id p =? id); reflexivity.
Qed.



Create HintDb pages.

#[local] Hint Resolve preserves_ret preserves_raise preserves_run_query : pages.
#[local] Hint Extern 1 (issued _ _) => cbn; tauto : pages.
#[local] Hint Extern 2 (preserves _ (bind _ _)) =>
  apply preserves_bind; [|intros] : pages.

(** A property that every statement the script can send keeps is kept
    by every run of the script. *)
Section ScriptPreserves.

Variable I : db -> Prop.
Variable clk : clock.
Hypothesis execute_keeps : forall q, issued clk q -> preserves I (execute q).

#[local] Hint Resolve execute_keeps : pages.

Lemma init_db_preserves : preserves I init_db.
Proof. unfold init_db. auto 7 with pages. Qed.

Lemma prayer_buttons_preserves (pressed : option button)
    (listed : list prayer) :
  preserves I (prayer_buttons pressed listed).
Proof.
  induction listed as [|row rest IH]; cbn [prayer_buttons].
  - auto with pages.
  - destruct (pressed_repondu pressed (p_id row));
      [unfold update_prayer_status; auto with pages|].
    destruct (pressed_en_priere pressed (p_id row));
      [unfold update_prayer_status; auto with pages | exact IH].
Qed.

#[local] Hint Resolve init_db_preserves prayer_buttons_preserves : pages.

Lemma script_preserves (p : page) : preserves I (script clk p).
Proof.
  unfold script. apply preserves_bind; [auto with pages|]. intros _.
  destruct p.
  - unfold vue_d_ensemble, get_members_df, get_attendance_df, get_prayers_df.
    auto 12 with pages.
  - unfold membres, add_member_form, add_member, get_members_df.
    apply preserves_bind; [|auto with pages].
    apply preserves_bind.
    + destruct submitted; [destruct (py_not name)|]; auto 10 with pages.
    + intros shown. apply preserves_bind; [auto with pages|]. intros ms.
      destruct (0 <? List.length ms)%nat; auto with pages.
  - unfold presences, attendance_form, add_attendance, get_members_df,
      get_attendance_df.
    apply preserves_bind; [|auto with pages].
    apply preserves_bind; [auto with pages|]. intros ms.
    destruct (List.length ms =? 0)%nat; [auto with pages|].
    apply preserves_bind; [|auto 8 with pages].
    destruct submit_att; [|auto with pages].
    destruct (nth_error ms choice); auto 8 with pages.
  - unfold prayer_form, add_prayer, prayer_list, get_prayers_df.
    apply preserves_bind.
    + destruct sub; [destruct (py_not content)|]; auto 8 with pages.
    + intros _. apply preserves_bind; [auto with pages|]. intros ps.
      destruct (0 <? List.length ps)%nat; auto with pages.
  - unfold export_zip, reset_section, get_members_df, get_attendance_df,
      get_prayers_df.
    apply preserves_bind.
    + destruct export_clicked; auto 12 with pages.
    + intros _. apply preserves_bind; [|auto with pages].
      destruct reset_clicked; [destruct (confirmed confirm)|];
        auto 12 with pages.
Qed.

End ScriptPreserves.

Lemma reachable_invariant (I : db -> Prop) :
  I no_tables ->
  (forall clk q, valid_clock clk = true -> issued clk q ->
                 preserves I (execute q)) ->
  forall d, reachable d -> I d.
Proof.
  intros Hstart Hkeep d Hreach.
  induction Hreach as [|d clk pg _ IH Hclk]; [exact Hstart|].
  apply (script_preserves I clk); [|exact IH].
  intros q Hq. now apply (Hkeep clk).
Qed.

Lemma reachable_statuses_ok (d : db) : reachable d -> statuses_ok d.
Proof.
  apply reachable_invariant.
  - intros t Ht. discriminate.
  - intros clk q _ Hq. apply preserves_execute. intros d0 d' Hd Hex.
    exact (sql_exec_statuses_ok clk q d0 d' Hq Hd Hex).
Qed.


(** C6.  In every state of the file that runs of the script can produce,
    starting without tables, each row of the prayers table has the status
    "open" or "answered": the form inserts "open", and the two buttons
    write "answered" and "open". *)
Theorem reachable_status_open_or_answered (d : db) (t : table prayer)
    (p : prayer) :
  reachable d -> prayers d = Some t -> In p (rows t) ->
  p_status p = "open" \/ p_status p = "answered".
Proof.
  intros Hreach Ht Hin.
  pose proof (reachable_statuses_ok d Hreach t Ht) as H.
  rewrite Forall_forall in H. exact (H p Hin).
Qed.

Lemma reachable_status_open_or_answered_witness :
  reachable Samples.after_answer
  /\ prayers Samples.after_answer
     = Some (mktable
               [mkprayer 1 "Anonyme" "Paix" (mkdate 2024 3 15) "answered"] 1)
  /\ ("answered" = "open" \/ "answered" = "answered").
Proof.
  assert (Hr : reachable Samples.after_answer).
  { unfold Samples.after_answer, Samples.after_one_prayer.
    apply reach_run; [apply reach_run; [apply reach_start|]|]; reflexivity. }
  split; [exact Hr|]. split; [reflexivity|].
  exact (reachable_status_open_or_answered Samples.after_answer
           (mktable
              [mkprayer 1 "Anonyme" "Paix" (mkdate 2024 3 15) "answered"] 1)
           (mkprayer 1 "Anonyme" "Paix" (mkdate 2024 3 15) "answered")
           Hr eq_refl (or_introl eq_refl)).
Defined.

(** ** The stored text of a date orders as the date *)

Section IsoformatOrder.

Local Open Scope string_scope.

Lemma compare_append (x y s t : string) :
  String.length x = String.length y ->
  String.compare (x ++ s) (y ++ t) =
  match String.compare x y with
  | Eq => String.compare s t
  | c => c
  end.
Proof.
  revert y. induction x as [|a x IH]; intros [|b y] Hlen;
    try discriminate; cbn; [reflexivity|].
  destruct (Ascii.compare a b); try reflexivity.
  apply IH. now injection Hlen.
Qed.

Lemma comparison_eqb_eq (a b : comparison) : comparison_eqb a b = true -> a = b.
Proof. destruct a, b; cbn; congruence. Qed.

Lemma pad2_compare_table :
  forallb
    (fun i =>
       forallb
         (fun j =>
            comparison_eqb
              (String.compare (pad2 (Z.of_nat i)) (pad2 (Z.of_nat j)))
              (Z.of_nat i ?= Z.of_nat j)%Z)
         (List.seq 0 100))
    (List.seq 0 100) = true.
Proof. vm_compute. reflexivity. Qed.

Lemma pad2_compare (a b : Z) :
  (0 <= a < 100)%Z -> (0 <= b < 100)%Z ->
  String.compare (pad2 a) (pad2 b) = (a ?= b)%Z.
Proof.
  intros Ha Hb.
  pose proof pad2_compare_table as T.
  rewrite forallb_forall in T.
  specialize (T (Z.to_nat a)). rewrite forallb_forall in T.
  assert (Hin : forall n, (0 <= n < 100)%Z -> In (Z.to_nat n) (List.seq 0 100)).
  { intros n Hn. apply in_seq. lia. }
  specialize (T (Hin a Ha) (Z.to_nat b) (Hin b Hb)).
  rewrite !Z2Nat.id in T by lia.
  now apply comparison_eqb_eq.
Qed.

Lemma pad2_length (a : Z) : String.length (pad2 a) = 2%nat.
Proof. reflexivity. Qed.

Lemma pad2_compare_append (a b : Z) (s t : string) :
  (0 <= a < 100)%Z -> (0 <= b < 100)%Z ->
  String.compare (pad2 a ++ s) (pad2 b ++ t) =
  match (a ?= b)%Z with
  | Eq => String.compare s t
  | c => c
  end.
Proof.
  intros Ha Hb. rewrite compare_append by reflexivity.
  now rewrite pad2_compare.
Qed.

Lemma pad4_compare_append (a b : Z) (s t : string) :
  (0 <= a < 10000)%Z -> (0 <= b < 10000)%Z ->
  String.compare (pad4 a ++ s) (pad4 b ++ t) =
  match (a ?= b)%Z with
  | Eq => String.compare s t
  | c => c
  end.
Proof.
  intros Ha Hb. unfold pad4. rewrite !append_assoc.
  assert (Hdiv : forall n, (0 <= n < 10000)%Z ->
                           (0 <= n / 100 < 100)%Z /\ (0 <= n mod 100 < 100)%Z).
  { intros n Hn. split; [|apply Z.mod_pos_bound; lia].
    split; [apply Z.div_pos; lia | apply Z.div_lt_upper_bound; lia]. }
  destruct (Hdiv a Ha) as [Ha1 Ha0], (Hdiv b Hb) as [Hb1 Hb0].
  rewrite pad2_compare_append by assumption.
  rewrite pad2_compare_append by assumption.
  pose proof (Z.div_mod a 100 ltac:(lia)) as Ea.
  pose proof (Z.div_mod b 100 ltac:(lia)) as Eb.
  destruct (Z.compare_spec (a / 100) (b / 100)) as [H1|H1|H1];
    destruct (Z.compare_spec (a mod 100) (b mod 100)) as [H0|H0|H0];
    destruct (Z.compare_spec a b) as [H|H|H];
    try reflexivity; exfalso; lia.
Qed.

(** The dates whose text has the fixed width; every valid date is one. *)
Lemma valid_date_bounds (d : date) :
  valid_date d = true ->
  (0 <= year d < 10000 /\ 0 <= month d < 100 /\ 0 <= day d < 100)%Z.
Proof.
  unfold valid_date, days_in_month. intros H.
  repeat (apply andb_prop in H; destruct H as [H ?]).
  repeat match goal with
         | H : (_ <=? _)%Z = true |- _ => apply Z.leb_le in H
         end.
  assert (day d <= 31)%Z.
  { destruct (month d =? 2)%Z;
      [destruct (is_leap (year d))|
       destruct ((month d =? 4)%Z || (month d =? 6)%Z || (month d =? 9)%Z
                 || (month d =? 11)%Z)]; lia. }
  lia.
Qed.

Lemma isoformat_compare (a b : date) :
  valid_date a = true -> valid_date b = true ->
  String.compare (isoformat a) (isoformat b) = date_compare a b.
Proof.
  intros Ha Hb.
  destruct (valid_date_bounds a Ha) as (Hya & Hma & Hda).
  destruct (valid_date_bounds b Hb) as (Hyb & Hmb & Hdb).
  unfold isoformat, date_compare.
  rewrite pad4_compare_append by assumption.
  destruct (year a ?= year b)%Z; try reflexivity.
  cbn [append String.compare]. change ("-" ?= "-")%char with Eq. cbv iota.
  rewrite pad2_compare_append by assumption.
  destruct (month a ?= month b)%Z; try reflexivity.
  cbn [append String.compare]. change ("-" ?= "-")%char with Eq. cbv iota.
  apply pad2_compare; assumption.
Qed.

Lemma isoformat_ltb (a b : date) :
  valid_date a = true -> valid_date b = true ->
  String.ltb (isoformat a) (isoformat b) = date_ltb a b.
Proof.
  intros Ha Hb. unfold String.ltb, date_ltb.
  now rewrite isoformat_compare.
Qed.

End IsoformatOrder.

(** ** Dates as Python compares them *)

Lemma date_eqb_eq (a b : date) : date_eqb a b = true <-> a = b.
Proof.
  unfold date_eqb. destruct a as [ya ma da], b as [yb mb db]; cbn.
  rewrite !andb_true_iff, !Z.eqb_eq. split.
  - intros [[-> ->] ->]; reflexivity.
  - intros H; injection H; auto.
Qed.

Lemma date_eqb_refl (a : date) : date_eqb a a = true.
Proof. now apply date_eqb_eq. Qed.

Lemma date_leb_iff (a b : date) :
  date_leb a b = true <->
  (year a < year b
   \/ (year a = year b
       /\ (month a < month b \/ (month a = month b /\ day a <= day b)))).
Proof.
  unfold date_leb, date_compare.
  destruct (Z.compare_spec (year a) (year b));
    destruct (Z.compare_spec (month a) (month b));
    destruct (Z.compare_spec (day a) (day b));
    split; intros; try reflexivity; try discriminate; lia.
Qed.

Lemma date_ltb_iff (a b : date) :
  date_ltb a b = true <->
  (year a < year b
   \/ (year a = year b
       /\ (month a < month b \/ (month a = month b /\ day a < day b)))).
Proof.
  unfold date_ltb, date_compare.
  destruct (Z.compare_spec (year a) (year b));
    destruct (Z.compare_spec (month a) (month b));
    destruct (Z.compare_spec (day a) (day b));
    split; intros; try reflexivity; try discriminate; lia.
Qed.

Lemma date_ltb_leb (a b : date) : date_ltb a b = true -> date_leb a b = true.
Proof. rewrite date_ltb_iff, date_leb_iff. lia. Qed.

Lemma date_ltb_false_leb (a b : date) :
  date_ltb a b = false -> date_leb b a = true.
Proof.
  intros H. apply date_leb_iff.
  destruct (date_ltb a b) eqn:E; [discriminate|].
  assert (N : ~ (year a < year b
                 \/ (year a = year b
                     /\ (month a < month b
                         \/ (month a = month b /\ day a < day b))))).
  { intros C. apply date_ltb_iff in C. congruence. }
  lia.
Qed.

Lemma date_leb_trans (a b c : date) :
  date_leb a b = true -> date_leb b c = true -> date_leb a c = true.
Proof. rewrite !date_leb_iff. lia. Qed.

Lemma date_ltb_irrefl (a : date) : date_ltb a a = false.
Proof.
  destruct (date_ltb a a) eqn:E; [|reflexivity].
  apply date_ltb_iff in E. lia.
Qed.

(** ** Prière: the view *)

Section PrayersView.

Lemma string_compare_refl (s : string) : String.compare s s = Eq.
Proof.
  induction s as [|c s IH]; cbn; [reflexivity|].
  unfold Ascii.compare. now rewrite N.compare_refl.
Qed.

Lemma string_ltb_irrefl (s : string) : String.ltb s s = false.
Proof. unfold String.ltb. now rewrite string_compare_refl. Qed.

Lemma ORDER_BY_created_DESC_cons (r : prayer) (l : list prayer) :
  ORDER_BY_created_DESC (r :: l) = sorter_insert r (ORDER_BY_created_DESC l).
Proof. reflexivity. Qed.

Lemma sorter_insert_perm (r : prayer) (l : list prayer) :
  Permutation (r :: l) (sorter_insert r l).
Proof.
  induction l as [|x l IH]; cbn [sorter_insert]; [reflexivity|].
  destruct (String.ltb (created_text r) (created_text x)); [|reflexivity].
  rewrite perm_swap. now apply perm_skip.
Qed.

Lemma ORDER_BY_created_DESC_perm (l : list prayer) :
  Permutation l (ORDER_BY_created_DESC l).
Proof.
  induction l as [|r l IH]; [constructor|].
  rewrite ORDER_BY_created_DESC_cons, <- sorter_insert_perm.
  now apply perm_skip.
Qed.

(** Rows created on the same day keep their relative order. *)
Lemma sorter_insert_stable (k : date) (r : prayer) (l : list prayer) :
  filter (created_on k) (sorter_insert r l) = filter (created_on k) (r :: l).
Proof.
  induction l as [|x l IH]; [reflexivity|].
  cbn [sorter_insert].
  destruct (String.ltb (created_text r) (created_text x)) eqn:E;
    [|reflexivity].
  cbn [filter] in *. rewrite IH.
  destruct (created_on k r) eqn:Er; [|reflexivity].
  destruct (created_on k x) eqn:Ex; [|reflexivity].
  exfalso. unfold created_on in Er, Ex.
  apply date_eqb_eq in Er, Ex. unfold created_text in E.
  rewrite Er, Ex, string_ltb_irrefl in E. discriminate.
Qed.

Lemma ORDER_BY_created_DESC_stable (k : date) (l : list prayer) :
  filter (created_on k) (ORDER_BY_created_DESC l) = filter (created_on k) l.
Proof.
  induction l as [|r l IH]; [reflexivity|].
  rewrite ORDER_BY_created_DESC_cons, sorter_insert_stable.
  cbn [filter]. now rewrite IH.
Qed.

Lemma sorter_insert_valid (r : prayer) (l : list prayer) :
  valid_created r -> Forall valid_created l ->
  Forall valid_created (sorter_insert r l).
Proof.
  intros Hr Hl.
  apply (Permutation_Forall (sorter_insert_perm r l)).
  now constructor.
Qed.

Lemma ORDER_BY_created_DESC_valid (l : list prayer) :
  Forall valid_created l -> Forall valid_created (ORDER_BY_created_DESC l).
Proof. apply Permutation_Forall, ORDER_BY_created_DESC_perm. Qed.

Lemma sorter_insert_HdRel (x r : prayer) (l : list prayer) :
  not_older x r -> HdRel not_older x l ->
  HdRel not_older x (sorter_insert r l).
Proof.
  intros Hxr Hxl. destruct l as [|y l]; cbn [sorter_insert];
    [now constructor|].
  destruct (String.ltb (created_text r) (created_text y)).
  - constructor. now inversion Hxl.
  - now constructor.
Qed.

Lemma sorter_insert_sorted (r : prayer) (l : list prayer) :
  valid_created r -> Forall valid_created l ->
  Sorted not_older l -> Sorted not_older (sorter_insert r l).
Proof.
  intros Hr Hv Hs. induction Hs as [|x l Hs IH Hhd]; cbn [sorter_insert].
  - repeat constructor.
  - inversion Hv as [|? ? Hx Hl]; subst.
    unfold created_text at 1 2. rewrite isoformat_ltb by assumption.
    destruct (date_ltb (p_created r) (p_created x)) eqn:E.
    + constructor; [now apply IH|].
      apply sorter_insert_HdRel; [|assumption].
      unfold not_older. now apply date_ltb_leb.
    + constructor; [now constructor|].
      constructor. unfold not_older. now apply date_ltb_false_leb.
Qed.

Lemma ORDER_BY_created_DESC_sorted (l : list prayer) :
  Forall valid_created l -> Sorted not_older (ORDER_BY_created_DESC l).
Proof.
  induction 1 as [|r l Hr Hl IH]; [constructor|].
  rewrite ORDER_BY_created_DESC_cons.
  apply sorter_insert_sorted; [assumption| |assumption].
  now apply ORDER_BY_created_DESC_valid.
Qed.

Lemma not_older_trans (a b c : prayer) :
  not_older a b -> not_older b c -> not_older a c.
Proof.
  unfold not_older. intros Hab Hbc. exact (date_leb_trans _ _ _ Hbc Hab).
Qed.

End PrayersView.

(** C8.  On a prayers table whose created dates are calendar dates, the
    prayers view returns normally with a rearrangement of the rows of the
    table, no row lost or added, in which every row stands before all rows
    created on an earlier day, and in which the rows created on one same
    day stand in the order they have in the table, which is the order of
    their insertion. *)
Theorem get_prayers_df_newest_first_stable (d : db) (t : table prayer) :
  prayers d = Some t ->
  Forall valid_created (rows t) ->
  exists view,
    get_prayers_df d = Ok view d
    /\ Permutation (rows t) view
    /\ StronglySorted not_older view
    /\ forall k, filter (created_on k) view = filter (created_on k) (rows t).
Proof.
  intros Hp Hv. exists (ORDER_BY_created_DESC (rows t)).
  split; [now apply get_prayers_df_Ok|].
  split; [apply ORDER_BY_created_DESC_perm|].
  split.
  - apply Sorted_StronglySorted.
    + intros a b c. apply not_older_trans.
    + now apply ORDER_BY_created_DESC_sorted.
  - intros k. apply ORDER_BY_created_DESC_stable.
Qed.

Lemma get_prayers_df_newest_first_stable_witness :
  prayers Samples.four_prayers_db = Some Samples.four_prayers
  /\ Forall valid_created (rows Samples.four_prayers)
  /\ exists view,
       get_prayers_df Samples.four_prayers_db = Ok view Samples.four_prayers_db
       /\ Permutation (rows Samples.four_prayers) view
       /\ StronglySorted not_older view
       /\ forall k, filter (created_on k) view
                    = filter (created_on k) (rows Samples.four_prayers).
Proof.
  assert (Hv : Forall valid_created (rows Samples.four_prayers)).
  { repeat constructor. }
  split; [reflexivity|]. split; [exact Hv|].
  exact (get_prayers_df_newest_first_stable Samples.four_prayers_db
           Samples.four_prayers eq_refl Hv).
Defined.

Example get_prayers_df_four_prayers :
  exists view,
    get_prayers_df Samples.four_prayers_db = Ok view Samples.four_prayers_db
    /\ map p_id view = [2; 4; 1; 3].
Proof. eexists. split; reflexivity. Qed.

(** ** Vue d'ensemble: the chart *)

Section DailyRate.

Lemma date_compare_Eq (a b : date) : date_compare a b = Eq -> a = b.
Proof.
  unfold date_compare. destruct a as [ya ma da], b as [yb mb db]; cbn.
  destruct (Z.compare_spec ya yb); try discriminate.
  destruct (Z.compare_spec ma mb); try discriminate.
  destruct (Z.compare_spec da db); try discriminate.
  intros _. congruence.
Qed.

Lemma date_compare_Gt (a b : date) : date_compare a b = Gt -> earlier b a.
Proof.
  unfold earlier. rewrite date_ltb_iff. unfold date_compare.
  destruct (Z.compare_spec (year a) (year b));
    destruct (Z.compare_spec (month a) (month b));
    destruct (Z.compare_spec (day a) (day b)); intros; try discriminate; lia.
Qed.

Lemma date_compare_Lt (a b : date) : date_compare a b = Lt -> earlier a b.
Proof. unfold earlier, date_ltb. now intros ->. Qed.

Lemma earlier_trans (a b c : date) : earlier a b -> earlier b c -> earlier a c.
Proof. unfold earlier. rewrite !date_ltb_iff. lia. Qed.

Lemma insert_key_In (d x : date) (keys : list date) :
  In x (insert_key d keys) <-> x = d \/ In x keys.
Proof.
  induction keys as [|k keys IH]; cbn; [intuition congruence|].
  destruct (date_compare d k) eqn:E; cbn.
  - apply date_compare_Eq in E. subst. intuition congruence.
  - intuition congruence.
  - rewrite IH. intuition congruence.
Qed.

Lemma insert_key_HdRel (k d : date) (keys : list date) :
  earlier k d -> HdRel earlier k keys -> HdRel earlier k (insert_key d keys).
Proof.
  intros Hkd Hk. destruct keys as [|y keys]; cbn; [now constructor|].
  destruct (date_compare d y); [assumption | now constructor|].
  constructor. now inversion Hk.
Qed.

Lemma insert_key_sorted (d : date) (keys : list date) :
  Sorted earlier keys -> Sorted earlier (insert_key d keys).
Proof.
  induction 1 as [|k keys Hs IH Hhd]; cbn; [repeat constructor|].
  destruct (date_compare d k) eqn:E.
  - now constructor.
  - constructor; [now constructor|]. constructor. now apply date_compare_Lt.
  - constructor; [assumption|].
    apply insert_key_HdRel; [now apply date_compare_Gt | assumption].
Qed.

Lemma group_keys_sorted (attendance : list attendance_row) :
  StronglySorted earlier (group_keys attendance).
Proof.
  apply Sorted_StronglySorted; [exact earlier_trans|].
  induction attendance as [|r l IH]; cbn; [constructor|].
  now apply insert_key_sorted.
Qed.

Lemma group_keys_In (d : date) (attendance : list attendance_row) :
  In d (group_keys attendance) <-> In d (map v_attend_date attendance).
Proof.
  induction attendance as [|r l IH]; cbn; [reflexivity|].
  rewrite insert_key_In, IH. intuition congruence.
Qed.

Lemma agg_dates (attendance : list attendance_row) :
  map attend_date (agg attendance) = group_keys attendance.
Proof.
  unfold agg. rewrite map_map. cbn. apply map_id.
Qed.

Lemma group_nonempty (d : date) (attendance : list attendance_row) :
  In d (map v_attend_date attendance) -> group d attendance <> [].
Proof.
  intros Hin. apply in_map_iff in Hin. destruct Hin as (r & Hr & Hin).
  assert (In r (group d attendance)).
  { apply filter_In. split; [assumption|]. subst. apply date_eqb_refl. }
  destruct (group d attendance); [contradiction | discriminate].
Qed.

Lemma group_In_date (d : date) (attendance : list attendance_row)
    (r : attendance_row) :
  In r (group d attendance) -> In d (map v_attend_date attendance).
Proof.
  intros Hin. apply filter_In in Hin. destruct Hin as [Hin Hd].
  apply date_eqb_eq in Hd. subst. now apply in_map.
Qed.

End DailyRate.

(** C7.  The chart's table has one row per calendar date that occurs in
    the attendance view, in strictly ascending order of date; the row of a
    date carries the mean of the present flags of the records of that
    date (their sum over their number) and that mean times 100.  A date
    with exactly two records, one present and one absent, gets 50. *)
Theorem agg_daily_rate_by_date_ascending (attendance : list attendance_row) :
  (attendance <> [] -> attendance_chart attendance = inl (agg attendance))
  /\ StronglySorted earlier (map attend_date (agg attendance))
  /\ (forall d, In d (map attend_date (agg attendance))
                <-> In d (map v_attend_date attendance))
  /\ (forall row, In row (agg attendance) ->
        let records := group (attend_date row) attendance in
        records <> []
        /\ present row = (inject_Z (sum_present records)
                          / inject_Z (Z.of_nat (List.length records)))%Q
        /\ taux row = (present row * 100)%Q)
  /\ (forall d r1 r2,
        group d attendance = [r1; r2] ->
        (v_present r1 = 1 /\ v_present r2 = 0)
        \/ (v_present r1 = 0 /\ v_present r2 = 1) ->
        exists row, In row (agg attendance) /\ attend_date row = d
                    /\ (taux row == 50)%Q).
Proof.
  split; [|split; [|split; [|split]]].
  - intros Hne. unfold attendance_chart.
    destruct attendance; [congruence | reflexivity].
  - rewrite agg_dates. apply group_keys_sorted.
  - intros d. rewrite agg_dates. apply group_keys_In.
  - intros row Hin. unfold agg in Hin. apply in_map_iff in Hin.
    destruct Hin as (d & <- & Hd). cbn.
    split; [|split; reflexivity].
    apply group_nonempty. now apply group_keys_In.
  - intros d r1 r2 Hg Hflags.
    exists (mkagg d (mean_present (group d attendance))
              (mean_present (group d attendance) * 100)%Q).
    split; [|split; [reflexivity|]].
    + unfold agg. apply in_map_iff. exists d. split; [reflexivity|].
      apply group_keys_In. apply (group_In_date d attendance r1).
      rewrite Hg. now left.
    + cbn [taux]. rewrite Hg. unfold mean_present, sum_present. cbn.
      destruct Hflags as [[-> ->]|[-> ->]]; reflexivity.
Qed.

Lemma agg_daily_rate_by_date_ascending_witness :
  let alice := mkattendance_row 1 1 (Some "Alice") (mkdate 2024 3 14) 1 "" in
  let bob := mkattendance_row 2 2 (Some "Bob") (mkdate 2024 3 14) 0 "" in
  [alice; bob] <> []
  /\ group (mkdate 2024 3 14) [alice; bob] = [alice; bob]
  /\ ((v_present alice = 1 /\ v_present bob = 0)
      \/ (v_present alice = 0 /\ v_present bob = 1))
  /\ attendance_chart [alice; bob] = inl (agg [alice; bob])
  /\ exists row, In row (agg [alice; bob])
                 /\ attend_date row = mkdate 2024 3 14
                 /\ (taux row == 50)%Q.
Proof.
  intros alice bob.
  destruct (agg_daily_rate_by_date_ascending [alice; bob])
    as (Hchart & _ & _ & _ & Hhalf).
  split; [discriminate|]. split; [reflexivity|].
  split; [left; split; reflexivity|].
  split; [apply Hchart; discriminate|].
  exact (Hhalf (mkdate 2024 3 14) alice bob eq_refl
           (or_introl (conj eq_refl eq_refl))).
Defined.

(** The example of the spec, run through the script. *)
Example vue_d_ensemble_alice_bob :
  vue_d_ensemble Samples.clk0 Samples.alice_bob =
  Ok (Percent (100 # 2),
      inl [mkagg (mkdate 2024 3 14) (1 # 2) (100 # 2)])
    Samples.alice_bob.
Proof. reflexivity. Qed.

(** ** Vue d'ensemble: the 30-day rate *)

Lemma taux_de_presence_30j_N_A (clk : clock)
    (attendance : list attendance_row) :
  taux_de_presence_30j clk attendance = N_A <-> last_30 clk attendance = [].
Proof.
  unfold taux_de_presence_30j.
  destruct attendance as [|r l]; [cbn; tauto|].
  cbn [List.length Nat.ltb Nat.leb].
  destruct (last_30 clk (r :: l)) as [|x k]; cbn; split;
    congruence.
Qed.

Lemma taux_de_presence_30j_Percent (clk : clock)
    (attendance : list attendance_row) :
  last_30 clk attendance <> [] ->
  taux_de_presence_30j clk attendance
  = Percent (mean_present (last_30 clk attendance) * 100).
Proof.
  intros Hne. unfold taux_de_presence_30j.
  destruct attendance as [|r l]; [cbn in Hne; congruence|].
  cbn [List.length Nat.ltb Nat.leb].
  destruct (last_30 clk (r :: l)) as [|x k]; [congruence | reflexivity].
Qed.

(** The filter of the code has no upper end: it keeps exactly the records
    of the spec's window and the records dated after the current moment. *)
Lemma last_30_within_or_later (clk : clock) (r : attendance_row)
    (attendance : list attendance_row) :
  In r (last_30 clk attendance) <->
  In r attendance
  /\ (within_trailing_days 30 clk r = true
      \/ Timestamp_today clk < to_datetime (v_attend_date r)).
Proof.
  unfold last_30, within_trailing_days. rewrite filter_In.
  rewrite andb_true_iff, Z.geb_le, !Z.leb_le.
  unfold Timedelta, NS_PER_DAY.
  split; intros [Hin H]; (split; [exact Hin | lia]).
Qed.

(** On a view without records dated after the current moment the filter
    of the code is the window of the spec. *)
Lemma last_30_is_window (clk : clock) (attendance : list attendance_row) :
  Forall (fun r => to_datetime (v_attend_date r) <= Timestamp_today clk)
    attendance ->
  last_30 clk attendance = filter (within_trailing_days 30 clk) attendance.
Proof.
  intros Hall. unfold last_30. apply filter_ext_in. intros r Hin.
  rewrite Forall_forall in Hall. specialize (Hall r Hin).
  unfold within_trailing_days.
  apply Z.leb_le in Hall. rewrite Hall, andb_true_r.
  apply Z.geb_leb.
Qed.

(** C3, at a record dated the day after the current one.  Alice joins on
    the 15th of March 2024 and her presence is recorded for the 16th: at
    noon of the 15th no record of the attendance view lies between 30 days
    ago and now, and the metric shows 100 where the claim says N/A. *)
Theorem taux_de_presence_30j_counts_a_later_date :
  exists view chart,
    get_attendance_df Samples.tomorrow_only = Ok view Samples.tomorrow_only
    /\ view = [mkattendance_row 1 1 (Some "Alice") (mkdate 2024 3 16) 1 ""]
    /\ filter (within_trailing_days 30 Samples.clk0) view = []
    /\ vue_d_ensemble Samples.clk0 Samples.tomorrow_only
       = Ok (Percent (100 # 1), chart) Samples.tomorrow_only
    /\ taux_de_presence_30j Samples.clk0 view <> N_A.
Proof.
  eexists. eexists.
  split; [reflexivity|]. split; [reflexivity|].
  split; [reflexivity|]. split; [reflexivity|].
  discriminate.
Qed.

(** ** CSV: what is written reads back *)

Section CsvRoundTrip.

Local Open Scope string_scope.

Lemma push_prepend (c : ascii) (f : string) (r : option (list (list string))) :
  push c (prepend f r) = prepend (String c f) r.
Proof. destruct r as [[|[|g fs] rs]|]; reflexivity. Qed.

Lemma read_Bare_separator (sep : ascii) (rest : string) :
  is_separator sep ->
  read Bare (String sep rest) =
  if Ascii.eqb sep delimiter
  then next_field (read FieldStart rest)
  else next_record (read RowStart rest).
Proof. intros [-> | ->]; reflexivity. Qed.

Lemma read_start_separator (st : state) (sep : ascii) (rest : string) :
  at_field_start st -> is_separator sep ->
  read st (String sep rest) = read Bare (String sep rest).
Proof. intros [-> | ->] [-> | ->]; reflexivity. Qed.

Lemma read_AfterQuote_separator (sep : ascii) (rest : string) :
  is_separator sep ->
  read AfterQuote (String sep rest) = read Bare (String sep rest).
Proof. intros [-> | ->]; reflexivity. Qed.

Lemma prepend_empty_separator (sep : ascii) (rest : string) :
  is_separator sep ->
  prepend EmptyString (read Bare (String sep rest))
  = read Bare (String sep rest).
Proof.
  intros Hsep. rewrite read_Bare_separator by assumption.
  destruct (Ascii.eqb sep delimiter).
  - destruct (read FieldStart rest) as [[|fs rs]|]; reflexivity.
  - destruct (read RowStart rest) as [rs|]; reflexivity.
Qed.

Lemma special_false (c : ascii) :
  special c = false ->
  Ascii.eqb c quotechar = false /\ Ascii.eqb c delimiter = false
  /\ is_newline c = false.
Proof.
  unfold special, lineterminator, is_newline. cbn [contains].
  rewrite !orb_false_iff. tauto.
Qed.

Lemma read_ordinary (st : state) (c : ascii) (s : string) :
  special c = false ->
  st = RowStart \/ st = FieldStart \/ st = Bare ->
  read st (String c s) = push c (read Bare s).
Proof.
  intros Hc Hst. apply special_false in Hc. destruct Hc as (Hq & Hd & Hn).
  destruct Hst as [-> | [-> | ->]]; cbn [read]; now rewrite Hq, Hd, Hn.
Qed.

(** A field written bare is read up to the separator that follows it. *)
Lemma read_bare_field (f : string) (sep : ascii) (rest : string) :
  needs_quotes f = false -> is_separator sep ->
  read Bare (f ++ String sep rest) = prepend f (read Bare (String sep rest)).
Proof.
  intros Hf Hsep. induction f as [|c f IH].
  - cbn [append]. now rewrite prepend_empty_separator.
  - cbn [needs_quotes] in Hf. apply orb_false_iff in Hf. destruct Hf as [Hc Hf].
    cbn [append]. rewrite read_ordinary by auto.
    rewrite IH by assumption. apply push_prepend.
Qed.

Lemma read_start_bare_field (st : state) (f : string) (sep : ascii)
    (rest : string) :
  at_field_start st -> needs_quotes f = false -> is_separator sep ->
  read st (f ++ String sep rest) = prepend f (read Bare (String sep rest)).
Proof.
  intros Hst Hf Hsep. destruct f as [|c f].
  - cbn [append]. rewrite read_start_separator by assumption.
    now rewrite prepend_empty_separator.
  - pose proof Hf as Hf'.
    cbn [needs_quotes] in Hf. apply orb_false_iff in Hf. destruct Hf as [Hc Hf].
    cbn [append].
    rewrite read_ordinary by (unfold at_field_start in Hst; tauto).
    rewrite <- (read_ordinary Bare) by auto.
    exact (read_bare_field (String c f) sep rest Hf' Hsep).
Qed.

Lemma read_Quoted_quote (s : string) :
  read Quoted (String quotechar s) = read AfterQuote s.
Proof. reflexivity. Qed.

Lemma read_Quoted_other (c : ascii) (s : string) :
  Ascii.eqb c quotechar = false ->
  read Quoted (String c s) = push c (read Quoted s).
Proof. intros H. cbn [read]. now rewrite H. Qed.

Lemma read_AfterQuote_quote (s : string) :
  read AfterQuote (String quotechar s) = push quotechar (read Quoted s).
Proof. reflexivity. Qed.

Lemma read_start_quote (st : state) (s : string) :
  at_field_start st -> read st (String quotechar s) = read Quoted s.
Proof. intros [-> | ->]; reflexivity. Qed.

(** Inside quotes, doubled quotes are read as one, up to the closing one. *)
Lemma read_quoted_body (f : string) (sep : ascii) (rest : string) :
  is_separator sep ->
  read Quoted (double_quotes f ++ String quotechar (String sep rest))
  = prepend f (read Bare (String sep rest)).
Proof.
  intros Hsep. induction f as [|c f IH].
  - cbn [double_quotes append]. rewrite read_Quoted_quote.
    rewrite read_AfterQuote_separator by assumption.
    now rewrite prepend_empty_separator.
  - cbn [double_quotes]. destruct (Ascii.eqb c quotechar) eqn:E.
    + apply Ascii.eqb_eq in E. subst c.
      cbn [append]. rewrite read_Quoted_quote, read_AfterQuote_quote.
      rewrite IH. apply push_prepend.
    + cbn [append]. rewrite read_Quoted_other by assumption.
      rewrite IH. apply push_prepend.
Qed.

Lemma read_written_field (st : state) (f : string) (sep : ascii)
    (rest : string) :
  at_field_start st -> is_separator sep ->
  read st (write_field f ++ String sep rest)
  = prepend f (read Bare (String sep rest)).
Proof.
  intros Hst Hsep. unfold write_field.
  destruct (needs_quotes f) eqn:E.
  - cbn [append]. rewrite append_assoc. cbn [append].
    rewrite read_start_quote by assumption.
    now apply read_quoted_body.
  - now apply read_start_bare_field.
Qed.

Lemma read_joined_fields (st : state) (fields : list string) (rest : string)
    (records : list (list string)) :
  at_field_start st -> fields <> [] ->
  read RowStart rest = Some records ->
  read st (join_fields fields ++ lineterminator ++ rest)
  = Some (fields :: records).
Proof.
  intros Hst Hne Hrest. revert st Hst.
  induction fields as [|f fields IH]; [congruence|]. intros st Hst.
  destruct fields as [|g fields].
  - cbn [join_fields]. unfold lineterminator. cbn [append].
    rewrite read_written_field by (assumption || (right; reflexivity)).
    rewrite read_Bare_separator by (right; reflexivity).
    cbn. rewrite Hrest. cbn. now rewrite append_empty_r.
  - change (join_fields (f :: g :: fields))
      with (write_field f ++ String delimiter (join_fields (g :: fields))).
    rewrite append_assoc. cbn [append].
    rewrite read_written_field by (assumption || (left; reflexivity)).
    rewrite read_Bare_separator by (left; reflexivity).
    cbn [Ascii.eqb]. rewrite Ascii.eqb_refl.
    rewrite (IH ltac:(discriminate) FieldStart) by (right; reflexivity).
    cbn. now rewrite append_empty_r.
Qed.

Lemma read_writerow (fields : list string) (rest : string)
    (records : list (list string)) :
  fields <> [] ->
  read RowStart rest = Some records ->
  read RowStart (writerow fields ++ rest) = Some (fields :: records).
Proof.
  intros Hne Hrest.
  assert (Hgen : read RowStart ((join_fields fields ++ lineterminator) ++ rest)
                 = Some (fields :: records)).
  { rewrite append_assoc.
    apply read_joined_fields; [left; reflexivity | assumption | assumption]. }
  destruct fields as [|[|c f] [|g fields]];
    [congruence | | exact Hgen | exact Hgen | exact Hgen].
  cbn. now rewrite Hrest.
Qed.

(** Every table of texts whose records have at least one field reads
    back from what the writer makes of it. *)
Lemma parse_csv_writerows (records : list (list string)) :
  Forall (fun fields => fields <> []) records ->
  parse_csv (writerows records) = Some records.
Proof.
  unfold parse_csv. induction 1 as [|fields records Hne _ IH];
    [reflexivity|].
  cbn [writerows]. now apply read_writerow.
Qed.

End CsvRoundTrip.

Lemma members_csv_reads_back (members : list member) :
  parse_csv (csv_from_df (members_frame members))
  = Some (columns (members_frame members) :: map member_texts members).
Proof.
  unfold csv_from_df, to_csv. rewrite parse_csv_writerows.
  - unfold frame_texts, members_frame. cbn [columns data].
    rewrite map_map. reflexivity.
  - unfold frame_texts, members_frame. cbn [columns data].
    constructor; [discriminate|].
    rewrite map_map. apply Forall_forall. intros fields Hin.
    apply in_map_iff in Hin. destruct Hin as (m & <- & _). discriminate.
Qed.


(** The texts determine the values: the text of an integer and, on
    calendar dates, the ISO text are one-to-one, so two members views
    with the same CSV text are the same view. *)
Lemma string_of_Z_injective (x y : Z) :
  NilZero.string_of_int (Z.to_int x) = NilZero.string_of_int (Z.to_int y) ->
  x = y.
Proof.
  intros H.
  assert (Hread : forall z, NilZero.int_of_string
                              (NilZero.string_of_int (Z.to_int z))
                            = Some (Z.to_int z)).
  { intros z. apply NilZero.isi; destruct z; cbn; try discriminate;
      intros E; injection E; apply Unsigned.to_uint_nonnil. }
  pose proof (Hread x) as Hx. rewrite H, Hread in Hx.
  injection Hx as Hx.
  rewrite <- (DecimalZ.of_to x), <- (DecimalZ.of_to y). now rewrite Hx.
Qed.

Lemma isoformat_injective (a b : date) :
  valid_date a = true -> valid_date b = true ->
  isoformat a = isoformat b -> a = b.
Proof.
  intros Ha Hb H. apply date_compare_Eq.
  rewrite <- isoformat_compare by assumption.
  rewrite H. apply string_compare_refl.
Qed.

Lemma member_texts_injective (a b : member) :
  valid_joined a -> valid_joined b ->
  member_texts a = member_texts b -> a = b.
Proof.
  intros Ha Hb H. unfold member_texts in H.
  remember (isoformat (m_joined a)) as ja eqn:Eja.
  remember (isoformat (m_joined b)) as jb eqn:Ejb.
  remember (NilZero.string_of_int (Z.to_int (m_id a))) as ia eqn:Eia.
  remember (NilZero.string_of_int (Z.to_int (m_id b))) as ib eqn:Eib.
  injection H as Hid Hname Hphone Hemail Hrole Hjoined. subst ia ib ja jb.
  apply string_of_Z_injective in Hid.
  apply isoformat_injective in Hjoined; [|assumption|assumption].
  destruct a, b; cbn in *; congruence.
Qed.

Lemma map_injective_on {A B : Type} (P : A -> Prop) (f : A -> B)
    (a b : list A) :
  (forall x y, P x -> P y -> f x = f y -> x = y) ->
  Forall P a -> Forall P b -> map f a = map f b -> a = b.
Proof.
  intros Hf Ha. revert b.
  induction Ha as [|x a Hx Ha IH]; intros [|y b] Hb E;
    try discriminate; [reflexivity|].
  inversion Hb; subst. cbn [map] in E. injection E as Hxy E.
  f_equal; [now apply Hf | now apply IH].
Qed.

Lemma members_csv_injective (a b : list member) :
  Forall valid_joined a -> Forall valid_joined b ->
  csv_from_df (members_frame a) = csv_from_df (members_frame b) -> a = b.
Proof.
  intros Ha Hb H.
  pose proof (members_csv_reads_back a) as Ea.
  pose proof (members_csv_reads_back b) as Eb.
  rewrite H, Eb in Ea.
  assert (E : map member_texts a = map member_texts b) by congruence.
  exact (map_injective_on valid_joined member_texts a b
           member_texts_injective Ha Hb E).
Qed.

(* ================================================================= *)
(** * Further properties *)

(** ** What a run writes *)

Create HintDb sent.

#[local] Hint Resolve preserves_ret preserves_raise preserves_run_query : sent.
#[local] Hint Extern 2 (preserves _ (bind _ _)) =>
  apply preserves_bind; [|intros] : sent.

Lemma pressed_repondu_true (b : option button) (id : Z) :
  pressed_repondu b id = true -> b = Some (Marquer_repondu id).
Proof.
  destruct b as [[i|i]|]; cbn; try discriminate.
  intros H. apply Z.eqb_eq in H. now subst.
Qed.

Lemma pressed_en_priere_true (b : option button) (id : Z) :
  pressed_en_priere b id = true -> b = Some (Marquer_en_priere id).
Proof.
  destruct b as [[i|i]|]; cbn; try discriminate.
  intros H. apply Z.eqb_eq in H. now subst.
Qed.

(** A property that every statement a page can send keeps is kept by
    the run of the script on that page. *)
Section ScriptSends.

Variable I : db -> Prop.
Variable clk : clock.

Lemma init_db_sends (p : page) :
  (forall q, sent clk p q -> preserves I (execute q)) ->
  preserves I init_db.
Proof.
  intros H. unfold init_db.
  repeat (apply preserves_bind; [|intros]); apply H; exact Logic.I.
Qed.

Lemma prayer_buttons_sends (sub : bool) (edit : option string)
    (content : string) (pressed : option button) (listed : list prayer) :
  (forall q, sent clk (Priere sub edit content pressed) q ->
             preserves I (execute q)) ->
  preserves I (prayer_buttons pressed listed).
Proof.
  intros H. induction listed as [|row rest IH]; cbn [prayer_buttons].
  - apply preserves_ret.
  - destruct (pressed_repondu pressed (p_id row)) eqn:Er.
    { apply pressed_repondu_true in Er. subst pressed.
      unfold update_prayer_status. apply H. cbn.
      exists sub, edit, content. left. split; reflexivity. }
    destruct (pressed_en_priere pressed (p_id row)) eqn:Ep; [|exact IH].
    apply pressed_en_priere_true in Ep. subst pressed.
    unfold update_prayer_status. apply H. cbn.
    exists sub, edit, content. right. split; reflexivity.
Qed.

Lemma script_sends (p : page) :
  (forall q, sent clk p q -> preserves I (execute q)) ->
  preserves I (script clk p).
Proof.
  intros H. unfold script.
  apply preserves_bind; [exact (init_db_sends p H)|]. intros _.
  destruct p as [|submitted name phone email role
                 |submit_att choice fl dt note
                 |sub requester_edit content pressed
                 |export_clicked reset_clicked confirm].
  - unfold vue_d_ensemble, get_members_df, get_attendance_df, get_prayers_df.
    auto 12 with sent.
  - unfold membres, add_member_form, add_member, get_members_df.
    apply preserves_bind; [|auto with sent].
    apply preserves_bind.
    + destruct submitted; [|auto with sent].
      destruct (py_not name) eqn:En; [auto with sent|].
      apply preserves_bind; [|auto with sent].
      apply H. cbn. apply py_not_false in En. repeat split; assumption.
    + intros shown. apply preserves_bind; [auto with sent|]. intros ms.
      destruct (0 <? List.length ms)%nat; auto with sent.
  - unfold presences, attendance_form, add_attendance, get_members_df,
      get_attendance_df.
    apply preserves_bind; [|auto with sent].
    apply preserves_bind; [auto with sent|]. intros ms.
    destruct (List.length ms =? 0)%nat; [auto with sent|].
    apply preserves_bind; [|auto 8 with sent].
    destruct submit_att; [|auto with sent].
    destruct (nth_error ms choice); [|auto with sent].
    apply preserves_bind; [|auto with sent].
    apply H. cbn. exists choice, fl. split; reflexivity.
  - unfold prayer_form, add_prayer, prayer_list, get_prayers_df.
    apply preserves_bind.
    + destruct sub; [|auto with sent].
      destruct (py_not content) eqn:Ec; [auto with sent|].
      apply preserves_bind; [|auto with sent].
      apply H. cbn. exists requester_edit, pressed.
      apply py_not_false in Ec. repeat split; assumption.
    + intros _. apply preserves_bind; [auto with sent|]. intros ps.
      destruct (0 <? List.length ps)%nat; [|auto with sent].
      exact (prayer_buttons_sends sub requester_edit content pressed ps H).
  - unfold export_zip, reset_section, get_members_df, get_attendance_df,
      get_prayers_df.
    apply preserves_bind.
    + destruct export_clicked; auto 12 with sent.
    + intros _. apply preserves_bind; [|auto with sent].
      destruct reset_clicked; [|auto with sent].
      destruct (confirmed confirm) eqn:Ec; [|auto with sent].
      assert (Hdrop : forall q,
                 q = DROP_attendance_IF_EXISTS \/ q = DROP_prayers_IF_EXISTS
                 \/ q = DROP_members_IF_EXISTS ->
                 preserves I (execute q)).
      { intros q Hq. apply H.
        destruct Hq as [-> | [-> | ->]]; cbn;
          exists export_clicked, confirm; split; auto. }
      apply preserves_bind; [apply Hdrop; tauto|]. intros _.
      apply preserves_bind; [apply Hdrop; tauto|]. intros _.
      apply preserves_bind; [apply Hdrop; tauto|]. intros _.
      apply preserves_bind; [exact (init_db_sends _ H)|]. intros _.
      apply preserves_ret.
Qed.

End ScriptSends.

Lemma reachable_by_sent (I : db -> Prop) :
  I no_tables ->
  (forall clk p q, valid_clock clk = true -> sent clk p q ->
                   preserves I (execute q)) ->
  forall d, reachable d -> I d.
Proof.
  intros Hstart Hkeep d Hreach.
  induction Hreach as [|d clk pg _ IH Hclk]; [exact Hstart|].
  apply (script_sends I clk); [|exact IH].
  intros q Hq. now apply (Hkeep clk pg).
Qed.

(** ** Rowids *)

Lemma StronglySorted_snoc {A : Type} (R : A -> A -> Prop) (l : list A) (y : A) :
  StronglySorted R l -> Forall (fun x => R x y) l ->
  StronglySorted R (l ++ [y]).
Proof.
  induction 1 as [|x l Hs IH Hx]; intros Hy; cbn.
  - repeat constructor.
  - inversion Hy; subst. constructor; [now apply IH|].
    apply Forall_app. split; [assumption | now constructor].
Qed.

Lemma StronglySorted_lt_NoDup (l : list Z) : StronglySorted Z.lt l -> NoDup l.
Proof.
  induction 1 as [|x l Hs IH Hx]; constructor; [|exact IH].
  intros Hin. rewrite Forall_forall in Hx. specialize (Hx x Hin). lia.
Qed.

Lemma insert_row_table_ok {R : Type} (rowid : R -> Z) (mk : Z -> R)
    (t : table R) :
  (forall i, rowid (mk i) = i) ->
  0 <= seq t -> ids_ascending rowid t ->
  0 <= seq (insert_row rowid mk t)
  /\ ids_ascending rowid (insert_row rowid mk t).
Proof.
  intros Hmk Hseq [Hsorted Hbound].
  unfold insert_row, ids_ascending. cbn [rows seq].
  set (next := next_rowid rowid t).
  assert (Hnext : seq t < next) by (unfold next, next_rowid; lia).
  rewrite map_app. cbn [map]. rewrite Hmk.
  split; [lia|]. split.
  - apply StronglySorted_snoc; [exact Hsorted|].
    revert Hbound. apply Forall_impl. intros i Hi. lia.
  - apply Forall_app. split.
    + revert Hbound. apply Forall_impl. intros i Hi. lia.
    + constructor; [lia | constructor].
Qed.

Lemma empty_table_ok {R : Type} (rowid : R -> Z) :
  0 <= seq (@empty_table R) /\ ids_ascending rowid (@empty_table R).
Proof. cbn. split; [lia|]. split; constructor. Qed.

Lemma or_create_table_ok {R : Type} (rowid : R -> Z) (o : option (table R)) :
  table_ok rowid o -> table_ok rowid (or_create o).
Proof.
  intros H t Ht. destruct o as [t0|]; cbn in Ht; injection Ht as <-.
  - now apply H.
  - apply empty_table_ok.
Qed.

Lemma None_table_ok {R : Type} (rowid : R -> Z) : table_ok rowid None.
Proof. intros t Ht. discriminate. Qed.

Lemma insert_table_ok {R : Type} (rowid : R -> Z) (mk : Z -> R)
    (t : table R) :
  (forall i, rowid (mk i) = i) ->
  table_ok rowid (Some t) ->
  table_ok rowid (Some (insert_row rowid mk t)).
Proof.
  intros Hmk H t' Ht'. injection Ht' as <-.
  destruct (H t eq_refl) as [Hseq Hasc].
  now apply insert_row_table_ok.
Qed.

(** Every statement keeps the rowids in order. *)
Lemma sql_exec_ids_ok (q : statement) (d d' : db) :
  ids_ok d -> sql_exec q d = Some d' -> ids_ok d'.
Proof.
  intros (Hm & Ha & Hp) Hex.
  destruct q; cbn in Hex;
    try (injection Hex as <-; refine (conj _ (conj _ _));
         cbn [members attendance prayers];
         auto using or_create_table_ok, None_table_ok; fail).
  - destruct (members d) as [t|] eqn:E; [|discriminate].
    injection Hex as <-. refine (conj _ (conj _ _));
      cbn [members attendance prayers]; auto.
    now apply insert_table_ok.
  - destruct (attendance d) as [t|] eqn:E; [|discriminate].
    injection Hex as <-. refine (conj _ (conj _ _));
      cbn [members attendance prayers]; auto.
    now apply insert_table_ok.
  - destruct (prayers d) as [t|] eqn:E; [|discriminate].
    injection Hex as <-. refine (conj _ (conj _ _));
      cbn [members attendance prayers]; auto.
    now apply insert_table_ok.
  - destruct (prayers d) as [t|] eqn:E; [|discriminate].
    injection Hex as <-. refine (conj _ (conj _ _));
      cbn [members attendance prayers]; auto.
    intros t' Ht'. injection Ht' as <-.
    unfold ids_ascending. cbn [rows seq]. rewrite map_p_id_set_status.
    exact (Hp t eq_refl).
Qed.

Lemma reachable_ids_ok (d : db) : reachable d -> ids_ok d.
Proof.
  apply reachable_invariant.
  - refine (conj _ (conj _ _)); apply None_table_ok.
  - intros clk q _ _. apply preserves_execute. intros d0 d' Hd Hex.
    exact (sql_exec_ids_ok q d0 d' Hd Hex).
Qed.

Lemma table_ok_NoDup {R : Type} (rowid : R -> Z) (t : table R) :
  table_ok rowid (Some t) -> NoDup (map rowid (rows t)).
Proof.
  intros H. destruct (H t eq_refl) as (_ & Hs & _).
  now apply StronglySorted_lt_NoDup.
Qed.

(** X1.  In every state the script can produce, the ids of each of the
    three tables are positive, grow strictly along the table (rows stand
    in the order of their insertion), none exceeds the table's
    AUTOINCREMENT counter, and so no id occurs twice in a table. *)
Theorem reachable_ids_ascending (d : db) :
  reachable d ->
  ids_ok d
  /\ (forall t, members d = Some t -> NoDup (map m_id (rows t)))
  /\ (forall t, attendance d = Some t -> NoDup (map a_id (rows t)))
  /\ (forall t, prayers d = Some t -> NoDup (map p_id (rows t))).
Proof.
  intros Hr. pose proof (reachable_ids_ok d Hr) as Hok.
  split; [exact Hok|]. destruct Hok as (Hm & Ha & Hp).
  repeat split; intros t Ht; apply table_ok_NoDup; rewrite <- Ht;
    assumption.
Qed.

Lemma reachable_ids_ascending_witness :
  reachable Samples.alice_bob
  /\ members Samples.alice_bob
     = Some (mktable [MoreSamples.alice; MoreSamples.bob] 2)
  /\ ids_ok Samples.alice_bob.
Proof.
  assert (Hr : reachable Samples.alice_bob).
  { unfold Samples.alice_bob, Samples.alice_joins.
    repeat (apply reach_run; [|reflexivity]). apply reach_start. }
  split; [exact Hr|]. split; [reflexivity|].
  exact (proj1 (reachable_ids_ascending Samples.alice_bob Hr)).
Defined.

(** ** The present flags and the rates *)

Lemma sql_exec_flags_ok (clk : clock) (p : page) (q : statement) (d d' : db) :
  sent clk p q -> flags_ok d -> sql_exec q d = Some d' -> flags_ok d'.
Proof.
  intros Hq Hd Hex t Ht.
  destruct q; cbn in Hex;
    try (injection Hex as <-; cbn in Ht; try discriminate; auto; fail).
  - injection Hex as <-. cbn in Ht.
    destruct (attendance d) as [t0|] eqn:E; cbn in Ht; injection Ht as <-.
    + exact (Hd _ E).
    + constructor.
  - destruct (members d); [|discriminate]. injection Hex as <-. auto.
  - destruct (attendance d) as [t0|] eqn:E; [|discriminate].
    injection Hex as <-. cbn in Ht. injection Ht as <-. cbn.
    apply Forall_app. split; [exact (Hd _ E)|].
    constructor; [|constructor].
    destruct Hq as (choice & fl & _ & ->). unfold flag. cbn.
    destruct fl; lia.
  - destruct (prayers d); [|discriminate]. injection Hex as <-. auto.
  - destruct (prayers d); [|discriminate]. injection Hex as <-. auto.
Qed.

Lemma reachable_flags_ok (d : db) : reachable d -> flags_ok d.
Proof.
  apply reachable_by_sent.
  - intros t Ht. discriminate.
  - intros clk p q _ Hq. apply preserves_execute. intros d0 d' Hd Hex.
    exact (sql_exec_flags_ok clk p q d0 d' Hq Hd Hex).
Qed.

Lemma left_join_flags (att : list attendance_rec) (ms : list member) :
  Forall flag att -> Forall view_flag (left_join att ms).
Proof.
  intros H. unfold left_join. apply Forall_flat_map.
  revert H. apply Forall_impl. intros a Ha.
  destruct (filter (fun m => a_member_id a =? m_id m) ms) as [|m l].
  - constructor; [exact Ha | constructor].
  - apply Forall_map. apply Forall_forall. intros x _. exact Ha.
Qed.

Lemma sum_present_bounds (l : list attendance_row) :
  Forall view_flag l -> 0 <= sum_present l <= Z.of_nat (List.length l).
Proof.
  induction 1 as [|r l Hr _ IH]; cbn [sum_present fold_right List.length].
  - cbn. lia.
  - fold (sum_present l). unfold view_flag in Hr. lia.
Qed.

Lemma mean_present_percent_bounds (l : list attendance_row) :
  l <> [] -> Forall view_flag l ->
  (0 <= mean_present l * 100 /\ mean_present l * 100 <= 100)%Q.
Proof.
  intros Hne Hl. pose proof (sum_present_bounds l Hl) as [Hlo Hhi].
  assert (Hn : 0 < Z.of_nat (List.length l)).
  { destruct l; [congruence | cbn; lia]. }
  unfold mean_present.
  set (s := sum_present l) in *. set (n := Z.of_nat (List.length l)) in *.
  assert (Hq : (0 < inject_Z n)%Q).
  { change (inject_Z 0 < inject_Z n)%Q. rewrite <- Zlt_Qlt. exact Hn. }
  assert (H0 : (0 <= inject_Z s / inject_Z n)%Q).
  { apply Qle_shift_div_l; [exact Hq|]. rewrite Qmult_0_l.
    change (inject_Z 0 <= inject_Z s)%Q. rewrite <- Zle_Qle. exact Hlo. }
  assert (H1 : (inject_Z s / inject_Z n <= 1)%Q).
  { apply Qle_shift_div_r; [exact Hq|]. rewrite Qmult_1_l.
    rewrite <- Zle_Qle. exact Hhi. }
  split.
  - apply Qmult_le_0_compat; [exact H0 | discriminate].
  - setoid_replace (100 : Q) with (1 * 100)%Q at 2 by reflexivity.
    apply Qmult_le_compat_r; [exact H1 | discriminate].
Qed.

(** X2.  When every present flag of the attendance view is 0 or 1, the
    30-day metric is "N/A" or a rate between 0 and 100, and every value
    of the chart lies between 0 and 100. *)
Theorem rates_between_0_and_100 (clk : clock)
    (attendance : list attendance_row) :
  Forall view_flag attendance ->
  (taux_de_presence_30j clk attendance = N_A
   \/ exists rate, taux_de_presence_30j clk attendance = Percent rate
                   /\ (0 <= rate /\ rate <= 100)%Q)
  /\ Forall (fun row => (0 <= taux row /\ taux row <= 100)%Q)
       (agg attendance).
Proof.
  intros Hall. split.
  - destruct (last_30 clk attendance) as [|r l] eqn:E.
    + left. now apply taux_de_presence_30j_N_A.
    + right. eexists. split.
      * apply taux_de_presence_30j_Percent. congruence.
      * rewrite E. apply mean_present_percent_bounds; [discriminate|].
        rewrite <- E. unfold last_30.
        apply Forall_forall. intros x Hx. apply filter_In in Hx.
        rewrite Forall_forall in Hall. now apply Hall.
  - unfold agg. apply Forall_map. apply Forall_forall. intros d Hd. cbn.
    apply mean_present_percent_bounds.
    + apply group_nonempty. now apply group_keys_In.
    + unfold group. apply Forall_forall. intros x Hx. apply filter_In in Hx.
      rewrite Forall_forall in Hall. now apply Hall.
Qed.

Lemma rates_between_0_and_100_witness :
  let alice := mkattendance_row 1 1 (Some "Alice") (mkdate 2024 3 14) 1 "" in
  let bob := mkattendance_row 2 2 (Some "Bob") (mkdate 2024 3 14) 0 "" in
  Forall view_flag [alice; bob]
  /\ Forall (fun row => (0 <= taux row /\ taux row <= 100)%Q)
       (agg [alice; bob]).
Proof.
  intros alice bob.
  assert (H : Forall view_flag [alice; bob]).
  { constructor; [right; reflexivity|].
    constructor; [left; reflexivity | constructor]. }
  split; [exact H|].
  exact (proj2 (rates_between_0_and_100 Samples.clk0 [alice; bob] H)).
Defined.

(** X3.  In every state the script can produce, the present column holds
    only 0 and 1, and so does the attendance view read from that state. *)
Theorem reachable_present_is_0_or_1 (d : db) (view : list attendance_row)
    (d' : db) :
  reachable d -> get_attendance_df d = Ok view d' ->
  flags_ok d /\ Forall view_flag view.
Proof.
  intros Hr Hget. pose proof (reachable_flags_ok d Hr) as Hf.
  split; [exact Hf|].
  unfold get_attendance_df, run_query, SELECT_attendance_LEFT_JOIN_members
    in Hget.
  destruct (attendance d) as [a|] eqn:Ea; [|discriminate].
  destruct (members d) as [m|] eqn:Em; [|discriminate].
  injection Hget as <- _. apply left_join_flags. exact (Hf a Ea).
Qed.

Lemma reachable_present_is_0_or_1_witness :
  reachable Samples.alice_bob
  /\ exists view,
       get_attendance_df Samples.alice_bob = Ok view Samples.alice_bob
       /\ Forall view_flag view.
Proof.
  assert (Hr : reachable Samples.alice_bob).
  { unfold Samples.alice_bob, Samples.alice_joins.
    repeat (apply reach_run; [|reflexivity]). apply reach_start. }
  split; [exact Hr|]. eexists. split; [reflexivity|].
  exact (proj2 (reachable_present_is_0_or_1 Samples.alice_bob _
                  Samples.alice_bob Hr eq_refl)).
Defined.

(** ** The join with the members *)

Lemma filter_id_absent (x : Z) (ms : list member) :
  ~ In x (map m_id ms) -> filter (fun m => x =? m_id m) ms = [].
Proof.
  induction ms as [|m ms IH]; cbn; intros H; [reflexivity|].
  destruct (Z.eqb_spec x (m_id m)) as [E|E];
    [exfalso; apply H; left; now symmetry|].
  apply IH. tauto.
Qed.

Lemma filter_id_key (x : Z) (ms : list member) :
  NoDup (map m_id ms) ->
  filter (fun m => x =? m_id m) ms =
  match find (fun m => x =? m_id m) ms with
  | Some m => [m]
  | None => []
  end.
Proof.
  induction ms as [|m ms IH]; cbn; intros Hnd; [reflexivity|].
  inversion Hnd as [|? ? Hnot Hnd']; subst.
  destruct (Z.eqb_spec x (m_id m)) as [E|E].
  - subst x. now rewrite filter_id_absent.
  - now apply IH.
Qed.

Lemma left_join_by_key (att : list attendance_rec) (ms : list member) :
  NoDup (map m_id ms) ->
  left_join att ms = map (fun a => join_row a (member_name_of ms a)) att.
Proof.
  intros Hnd. unfold left_join, member_name_of.
  induction att as [|a att IH]; [reflexivity|].
  cbn [flat_map map]. rewrite filter_id_key by assumption.
  destruct (find (fun m => a_member_id a =? m_id m) ms);
    cbn [map app option_map]; (f_equal; exact IH).
Qed.

Lemma find_id_present (x : Z) (ms : list member) :
  In x (map m_id ms) ->
  exists m, find (fun m => x =? m_id m) ms = Some m /\ m_id m = x.
Proof.
  induction ms as [|m ms IH]; cbn; [tauto|]. intros H.
  destruct (Z.eqb_spec x (m_id m)) as [E|E].
  - exists m. split; [reflexivity | now symmetry].
  - apply IH. destruct H; [congruence | assumption].
Qed.

(** X4.  When the ids of the members are a key, the attendance view has
    exactly one row per attendance record, in the order of the records,
    each with the columns of its record and the name of the member whose
    id it carries, or NULL when no member has that id. *)
Theorem left_join_one_row_per_record (att : list attendance_rec)
    (ms : list member) :
  NoDup (map m_id ms) ->
  left_join att ms = map (fun a => join_row a (member_name_of ms a)) att
  /\ map v_id (left_join att ms) = map a_id att
  /\ (forall a, In a att -> ~ In (a_member_id a) (map m_id ms) ->
                In (join_row a None) (left_join att ms)).
Proof.
  intros Hnd. rewrite left_join_by_key by assumption.
  split; [reflexivity|]. split.
  - rewrite map_map. reflexivity.
  - intros a Hin Hnot. apply in_map_iff. exists a. split; [|assumption].
    unfold member_name_of.
    destruct (find (fun m => a_member_id a =? m_id m) ms) as [m|] eqn:E;
      [|reflexivity].
    apply find_some in E. destruct E as [Hm E]. apply Z.eqb_eq in E.
    exfalso. apply Hnot. rewrite E. now apply in_map.
Qed.

Lemma left_join_one_row_per_record_witness :
  NoDup (map m_id (rows MoreSamples.two_members))
  /\ left_join
       [mkattendance 1 2 (mkdate 2024 3 14) 1 "";
        mkattendance 2 9 (mkdate 2024 3 14) 0 "parti"]
       (rows MoreSamples.two_members)
     = [mkattendance_row 1 2 (Some "Bob") (mkdate 2024 3 14) 1 "";
        mkattendance_row 2 9 None (mkdate 2024 3 14) 0 "parti"].
Proof.
  assert (Hnd : NoDup (map m_id (rows MoreSamples.two_members))).
  { cbn. repeat constructor; cbn; intuition discriminate. }
  split; [exact Hnd|].
  rewrite (proj1 (left_join_one_row_per_record _ _ Hnd)). reflexivity.
Defined.

(** ** Présences: a record and its row in the view *)

Lemma script_page_body (clk : clock) (p : page) (d : db) :
  script clk p d = page_body clk p (final (init_db d)).
Proof.
  unfold script, bind. rewrite init_db_Ok. cbn [final].
  destruct p; reflexivity.
Qed.

Lemma add_attendance_Ok (member_id : Z) (attend_date : date) (present : bool)
    (note : string) (d : db) (a : table attendance_rec) :
  attendance d = Some a ->
  add_attendance member_id attend_date present note d =
  Ok tt (mkdb (members d)
           (Some (insert_row a_id
                    (fun i => mkattendance i member_id attend_date
                                (if present then 1 else 0) note) a))
           (prayers d)).
Proof.
  intros Ha. unfold add_attendance, execute; cbn. now rewrite Ha.
Qed.

(** What the page does on a file that has its tables. *)
Lemma presences_on_tables (submit_att : bool) (choice : nat) (fl : bool)
    (dt : date) (note : string) (d : db) (m : table member)
    (a : table attendance_rec) :
  members d = Some m -> attendance d = Some a ->
  presences submit_att choice fl dt note d =
  if (List.length (rows m) =? 0)%nat
  then Ok (Some (info "Ajoute des membres avant d'enregistrer des présences."))
         d
  else if submit_att then
    match nth_error (rows m) choice with
    | Some r =>
        Ok (Some (success "Présence enregistrée."))
          (mkdb (members d)
             (Some (insert_row a_id
                      (fun i => mkattendance i (m_id r) dt
                                  (if fl then 1 else 0) note) a))
             (prayers d))
    | None => Raise KeyError d
    end
  else Ok None d.
Proof.
  intros Hm Ha. unfold presences.
  rewrite (bind_Ok _ _ _ _ _ (get_members_df_Ok _ _ Hm)).
  destruct (List.length (rows m) =? 0)%nat; [reflexivity|].
  unfold attendance_form. destruct submit_att.
  - destruct (nth_error (rows m) choice) as [r|]; [|reflexivity].
    unfold bind. rewrite (add_attendance_Ok _ _ _ _ _ _ Ha). unfold ret.
    set (a2 := insert_row a_id _ a).
    now rewrite (get_attendance_df_Ok
                   (mkdb (members d) (Some a2) (prayers d)) a2 m eq_refl Hm).
  - unfold bind, ret.
    now rewrite (get_attendance_df_Ok _ _ _ Ha Hm).
Qed.

Lemma left_join_app (x y : list attendance_rec) (ms : list member) :
  left_join (x ++ y) ms = left_join x ms ++ left_join y ms.
Proof. unfold left_join. apply flat_map_app. Qed.

Lemma NoDup_map_same {A B : Type} (f : A -> B) (l : list A) (x y : A) :
  NoDup (map f l) -> In x l -> In y l -> f x = f y -> x = y.
Proof.
  induction l as [|z l IH]; cbn; [tauto|]. intros Hnd Hx Hy E.
  inversion Hnd as [|? ? Hnot Hnd']; subst.
  destruct Hx as [<- | Hx], Hy as [<- | Hy].
  - reflexivity.
  - exfalso. apply Hnot. rewrite E. now apply in_map.
  - exfalso. apply Hnot. rewrite <- E. now apply in_map.
  - now apply IH.
Qed.

Lemma member_name_of_member (ms : list member) (r : member)
    (a : attendance_rec) :
  NoDup (map m_id ms) -> In r ms -> a_member_id a = m_id r ->
  member_name_of ms a = Some (m_name r).
Proof.
  intros Hnd Hin Hid. unfold member_name_of.
  destruct (find_id_present (a_member_id a) ms) as (m & Hfind & Hm).
  { rewrite Hid. now apply in_map. }
  rewrite Hfind. cbn. do 2 f_equal.
  apply find_some in Hfind. destruct Hfind as [Hmin _].
  apply (NoDup_map_same m_id ms m r Hnd Hmin Hin). congruence.
Qed.

(** X5.  On a file whose member ids are a key, submitting the attendance
    form for the member at position [choice] returns normally, leaves
    members and prayers as they were, and the attendance view read next
    is the view as it was followed by exactly one row: a fresh id, that
    member's id and name, the date, flag (1 or 0) and note submitted. *)
Theorem presences_then_view_shows_the_record (choice : nat) (fl : bool)
    (dt : date) (note : string) (d : db) (m : table member)
    (a : table attendance_rec) (r : member) :
  members d = Some m -> attendance d = Some a ->
  NoDup (map m_id (rows m)) ->
  nth_error (rows m) choice = Some r ->
  exists d',
    presences true choice fl dt note d
      = Ok (Some (success "Présence enregistrée.")) d'
    /\ members d' = members d /\ prayers d' = prayers d
    /\ get_attendance_df d' =
       Ok (left_join (rows a) (rows m)
           ++ [mkattendance_row (next_rowid a_id a) (m_id r) (Some (m_name r))
                 dt (if fl then 1 else 0) note])
         d'
    /\ ~ In (next_rowid a_id a) (map a_id (rows a)).
Proof.
  intros Hm Ha Hnd Hnth.
  pose proof (nth_error_In _ _ Hnth) as Hin.
  rewrite (presences_on_tables true choice fl dt note d m a Hm Ha).
  destruct (rows m) as [|r0 rest] eqn:Erows; [destruct choice; discriminate|].
  cbn [List.length Nat.eqb]. rewrite Hnth.
  eexists. split; [reflexivity|]. cbn [members prayers].
  split; [reflexivity|]. split; [reflexivity|].
  split; [|apply next_rowid_fresh].
  erewrite get_attendance_df_Ok; [|reflexivity|exact Hm].
  f_equal. unfold insert_row. cbn [rows]. rewrite Erows.
  rewrite left_join_app. f_equal.
  rewrite <- Erows in Hnd, Hin |- *.
  rewrite left_join_by_key by assumption. cbn [map].
  unfold join_row. cbn.
  rewrite (member_name_of_member (rows m) r) by (assumption || reflexivity).
  reflexivity.
Qed.

Lemma presences_then_view_shows_the_record_witness :
  members MoreSamples.members_db = Some MoreSamples.two_members
  /\ attendance MoreSamples.members_db = Some MoreSamples.one_record
  /\ NoDup (map m_id (rows MoreSamples.two_members))
  /\ nth_error (rows MoreSamples.two_members) 1 = Some MoreSamples.bob
  /\ exists d',
       presences true 1 false (mkdate 2024 3 15) "malade"
         MoreSamples.members_db
         = Ok (Some (success "Présence enregistrée.")) d'
       /\ get_attendance_df d' =
          Ok [mkattendance_row 1 1 (Some "Alice") (mkdate 2024 3 14) 1 "";
              mkattendance_row 2 2 (Some "Bob") (mkdate 2024 3 15) 0 "malade"]
            d'.
Proof.
  assert (Hnd : NoDup (map m_id (rows MoreSamples.two_members))).
  { cbn. repeat constructor; cbn; intuition discriminate. }
  split; [reflexivity|]. split; [reflexivity|]. split; [exact Hnd|].
  split; [reflexivity|].
  destruct (presences_then_view_shows_the_record 1 false (mkdate 2024 3 15)
              "malade" MoreSamples.members_db MoreSamples.two_members
              MoreSamples.one_record MoreSamples.bob
              eq_refl eq_refl Hnd eq_refl)
    as (d' & H1 & _ & _ & H2 & _).
  exists d'. split; [exact H1 | exact H2].
Defined.

(** ** Whole runs *)

Lemma script_after_init (clk : clock) (p : page) (d : db) :
  script clk p d = script clk p (final (init_db d)).
Proof.
  rewrite (script_page_body clk p (final (init_db d))).
  rewrite (init_db_idempotent _ (init_db_has_tables d)). cbn [final].
  apply script_page_body.
Qed.

Lemma has_tables_Some (d : db) :
  has_tables d ->
  exists m a p, members d = Some m /\ attendance d = Some a
                /\ prayers d = Some p.
Proof.
  intros (Hm & Ha & Hp).
  destruct (members d) as [m|]; [|congruence].
  destruct (attendance d) as [a|]; [|congruence].
  destruct (prayers d) as [p|]; [|congruence].
  now exists m, a, p.
Qed.

Lemma export_zip_unchanged (clicked : bool) (d : db) :
  has_tables d -> exists z, export_zip clicked d = Ok z d.
Proof.
  intros H. destruct (has_tables_Some d H) as (m & a & p & Hm & Ha & Hp).
  unfold export_zip.
  rewrite (bind_Ok _ _ _ _ _ (get_members_df_Ok _ _ Hm)).
  rewrite (bind_Ok _ _ _ _ _ (get_attendance_df_Ok _ _ _ Ha Hm)).
  rewrite (bind_Ok _ _ _ _ _ (get_prayers_df_Ok _ _ Hp)).
  destruct clicked; eexists; reflexivity.
Qed.

Lemma reset_section_confirmed (confirm : string) (d : db) :
  confirmed confirm = true ->
  reset_section true confirm d
  = Ok (Some (success "Base réinitialisée.")) empty_tables.
Proof. intros H. unfold reset_section. rewrite H. reflexivity. Qed.

Lemma script_resets (clk : clock) (p : page) (d : db) :
  resets p = true -> script clk p d = Ok tt empty_tables.
Proof.
  destruct p as [| | | |export_clicked reset_clicked confirm];
    try discriminate.
  cbn [resets]. intros H. apply andb_prop in H. destruct H as [-> Hc].
  rewrite script_page_body. cbn [page_body].
  destruct (export_zip_unchanged export_clicked _ (init_db_has_tables d))
    as (z & Hz).
  rewrite (bind_Ok _ _ _ _ _ Hz).
  now rewrite (bind_Ok _ _ _ _ _ (reset_section_confirmed confirm _ Hc)).
Qed.

Lemma sent_drop_resets (clk : clock) (p : page) (q : statement) :
  sent clk p q ->
  q = DROP_attendance_IF_EXISTS \/ q = DROP_prayers_IF_EXISTS
  \/ q = DROP_members_IF_EXISTS ->
  resets p = true.
Proof.
  intros Hq [-> | [-> | ->]]; cbn in Hq;
    destruct Hq as (e & c & -> & Hc); cbn; exact Hc.
Qed.

Lemma sql_exec_has_tables (q : statement) (d d' : db) :
  q <> DROP_attendance_IF_EXISTS -> q <> DROP_prayers_IF_EXISTS ->
  q <> DROP_members_IF_EXISTS ->
  has_tables d -> sql_exec q d = Some d' -> has_tables d'.
Proof.
  intros N1 N2 N3 (Hm & Ha & Hp) Hex.
  destruct q; cbn in Hex; try congruence;
    try (injection Hex as <-; refine (conj _ (conj _ _));
         cbn [members attendance prayers];
         auto using or_create_Some; fail).
  - destruct (members d); [|discriminate]. injection Hex as <-.
    refine (conj _ (conj _ _)); cbn; auto; discriminate.
  - destruct (attendance d); [|discriminate]. injection Hex as <-.
    refine (conj _ (conj _ _)); cbn; auto; discriminate.
  - destruct (prayers d); [|discriminate]. injection Hex as <-.
    refine (conj _ (conj _ _)); cbn; auto; discriminate.
  - destruct (prayers d); [|discriminate]. injection Hex as <-.
    refine (conj _ (conj _ _)); cbn; auto; discriminate.
Qed.

(** X6.  After any run of the script, on any page, with any inputs and
    from any state of the file, the three tables exist; a run that
    resets ends with the three of them empty and their counters at 0. *)
Theorem script_leaves_three_tables (clk : clock) (p : page) (d : db) :
  has_tables (final (script clk p d))
  /\ (if resets p then script clk p d = Ok tt empty_tables else True).
Proof.
  destruct (resets p) eqn:Er.
  - rewrite (script_resets clk p d Er). split; [|reflexivity].
    cbn. repeat split; discriminate.
  - split; [|exact Logic.I]. rewrite script_after_init.
    apply (script_sends has_tables clk p); [|apply init_db_has_tables].
    intros q Hq. apply preserves_execute. intros d0 d' Hd Hex.
    apply (sql_exec_has_tables q d0 d'); try assumption;
      intros ->; pose proof (sent_drop_resets clk p _ Hq) as C;
      rewrite C in Er by tauto; discriminate.
Qed.





(** ** Nothing but the reset removes or rewrites a row *)










(** ** Attendance records and the members they point to *)

Lemma sql_exec_references_ok (q : statement) (d d' : db) :
  (forall mid dt pr note, q <> INSERT_attendance mid dt pr note) ->
  q <> DROP_members_IF_EXISTS ->
  references_ok d -> sql_exec q d = Some d' -> references_ok d'.
Proof.
  intros Nins Ndrop Hd Hex a Ha.
  destruct q; cbn in Hex; try congruence.
  - (* CREATE members *)
    injection Hex as <-. cbn in Ha |- *. specialize (Hd a Ha).
    destruct (members d) as [m|]; cbn; [exact Hd|].
    rewrite Hd. constructor.
  - (* CREATE attendance *)
    injection Hex as <-. cbn in Ha |- *.
    destruct (attendance d) as [a0|] eqn:E; cbn in Ha; injection Ha as <-.
    + exact (Hd _ E).
    + cbn. destruct (members d); [constructor | reflexivity].
  - injection Hex as <-. exact (Hd a Ha).
  - (* INSERT members *)
    destruct (members d) as [m|] eqn:E; [|discriminate].
    injection Hex as <-. cbn in Ha |- *. specialize (Hd a Ha).
    rewrite E in Hd. revert Hd. apply Forall_impl. intros r Hr.
    rewrite map_app. apply in_app_iff. now left.
  - destruct (prayers d); [|discriminate]. injection Hex as <-.
    exact (Hd a Ha).
  - destruct (prayers d); [|discriminate]. injection Hex as <-.
    exact (Hd a Ha).
  - injection Hex as <-. discriminate.
  - injection Hex as <-. exact (Hd a Ha).
Qed.

Lemma empty_tables_references_ok : references_ok empty_tables.
Proof. intros a Ha. injection Ha as <-. constructor. Qed.

Lemma init_db_references_ok (d : db) :
  references_ok d -> references_ok (final (init_db d)).
Proof.
  intros H. unfold init_db.
  assert (Hc : forall q,
             q = CREATE_members_IF_NOT_EXISTS
             \/ q = CREATE_attendance_IF_NOT_EXISTS
             \/ q = CREATE_prayers_IF_NOT_EXISTS ->
             preserves references_ok (execute q)).
  { intros q Hq. apply preserves_execute. intros d0 d' Hd Hex.
    apply (sql_exec_references_ok q d0 d'); try assumption;
      destruct Hq as [-> | [-> | ->]]; intros; discriminate. }
  revert d H. change (preserves references_ok init_db). unfold init_db.
  apply preserves_bind; [apply Hc; tauto|]. intros _.
  apply preserves_bind; [apply Hc; tauto|]. intros _.
  apply Hc; tauto.
Qed.

Lemma presences_references_ok (clk : clock) (submit_att : bool) (choice : nat)
    (fl : bool) (dt : date) (note : string) (d : db) :
  references_ok d ->
  references_ok
    (final (script clk (Presences submit_att choice fl dt note) d)).
Proof.
  intros Hd. rewrite script_page_body. cbn [page_body].
  pose proof (init_db_references_ok d Hd) as H1.
  pose proof (init_db_has_tables d) as Ht.
  remember (final (init_db d)) as d1 eqn:E1. clear E1 Hd d.
  destruct (has_tables_Some _ Ht) as (m & a & p & Hm & Ha & Hp).
  unfold bind at 1.
  rewrite (presences_on_tables submit_att choice fl dt note d1 m a Hm Ha).
  destruct (List.length (rows m) =? 0)%nat; [exact H1|].
  destruct submit_att; [|exact H1].
  destruct (nth_error (rows m) choice) as [r|] eqn:En; [|exact H1].
  cbn [ret final]. intros a' Ha'. cbn in Ha' |- *. injection Ha' as <-.
  rewrite Hm. unfold insert_row. cbn [rows].
  apply Forall_app. split.
  - specialize (H1 a Ha). now rewrite Hm in H1.
  - constructor; [|constructor]. cbn. apply in_map.
    exact (nth_error_In _ _ En).
Qed.

Lemma script_references_ok (clk : clock) (p : page) (d : db) :
  references_ok d -> references_ok (final (script clk p d)).
Proof.
  intros Hd. destruct (resets p) eqn:Er.
  { rewrite (script_resets clk p d Er). apply empty_tables_references_ok. }
  destruct p as [|submitted name phone email role
                 |submit_att choice fl dt note
                 |sub requester_edit content pressed
                 |export_clicked reset_clicked confirm];
    try (apply presences_references_ok; exact Hd);
    (apply (script_sends references_ok clk); [|exact Hd];
     intros q Hq; apply preserves_execute; intros d0 d' Hd0 Hex;
     apply (sql_exec_references_ok q d0 d'); try assumption;
     [ intros mid dt' pr note' ->; cbn in Hq;
       destruct Hq as (c & f & Hq & _); discriminate
     | intros ->; pose proof (sent_drop_resets clk _ _ Hq) as C;
       rewrite C in Er by tauto; discriminate ]).
Qed.

Lemma reachable_references_ok (d : db) : reachable d -> references_ok d.
Proof.
  induction 1 as [|d clk p _ IH _].
  - intros a Ha. discriminate.
  - now apply script_references_ok.
Qed.

Lemma join_row_named (ms : list member) (a : attendance_rec) :
  In (a_member_id a) (map m_id ms) -> named (join_row a (member_name_of ms a)).
Proof.
  intros Hin. destruct (find_id_present _ _ Hin) as (m & Hfind & _).
  exists (m_name m). unfold member_name_of. now rewrite Hfind.
Qed.

(** X9.  In every state the script can produce, every attendance record
    carries the id of a row of the members table, although nothing in the
    schema enforces it; the attendance view then has one row per record
    and every row carries a member's name, none is NULL. *)
Theorem reachable_attendance_points_to_members (d : db)
    (a : table attendance_rec) (m : table member) :
  reachable d -> attendance d = Some a -> members d = Some m ->
  Forall (fun r => In (a_member_id r) (map m_id (rows m))) (rows a)
  /\ List.length (left_join (rows a) (rows m)) = List.length (rows a)
  /\ Forall named (left_join (rows a) (rows m)).
Proof.
  intros Hr Ha Hm.
  pose proof (reachable_references_ok d Hr a Ha) as Href.
  rewrite Hm in Href.
  destruct (reachable_ids_ok d Hr) as (Hids & _).
  assert (Hnd : NoDup (map m_id (rows m))).
  { apply table_ok_NoDup. now rewrite <- Hm. }
  split; [exact Href|].
  rewrite left_join_by_key by assumption.
  split; [apply length_map|].
  apply Forall_map. revert Href. apply Forall_impl. intros r Hin.
  now apply join_row_named.
Qed.

Lemma reachable_attendance_points_to_members_witness :
  reachable Samples.alice_bob
  /\ exists a m,
       attendance Samples.alice_bob = Some a
       /\ members Samples.alice_bob = Some m
       /\ Forall named (left_join (rows a) (rows m)).
Proof.
  assert (Hr : reachable Samples.alice_bob).
  { unfold Samples.alice_bob, Samples.alice_joins.
    repeat (apply reach_run; [|reflexivity]). apply reach_start. }
  split; [exact Hr|]. eexists. eexists.
  split; [reflexivity|]. split; [reflexivity|].
  exact (proj2 (proj2 (reachable_attendance_points_to_members
                         Samples.alice_bob _ _ Hr eq_refl eq_refl))).
Defined.

(** ** Prière: status updates in sequence and the buttons *)

Lemma set_status_twice (s1 s2 : string) (id : Z) (p : prayer) :
  set_status s2 id (set_status s1 id p) = set_status s2 id p.
Proof.
  unfold set_status. destruct (p_id p =? id) eqn:E; cbn; now rewrite E.
Qed.

Lemma set_status_swap (s1 s2 : string) (id1 id2 : Z) (p : prayer) :
  id1 <> id2 ->
  set_status s2 id2 (set_status s1 id1 p)
  = set_status s1 id1 (set_status s2 id2 p).
Proof.
  intros Hne. unfold set_status.
  destruct (p_id p =? id1) eqn:E1, (p_id p =? id2) eqn:E2; cbn;
    rewrite ?E1, ?E2; try reflexivity.
  apply Z.eqb_eq in E1, E2. congruence.
Qed.

Lemma update_then_update (id1 id2 : Z) (s1 s2 : string) (d : db) :
  bind (update_prayer_status id1 s1) (fun _ => update_prayer_status id2 s2) d
  = match prayers d with
    | Some t =>
        Ok tt (mkdb (members d) (attendance d)
                 (Some (mktable
                          (map (fun p => set_status s2 id2
                                           (set_status s1 id1 p)) (rows t))
                          (seq t))))
    | None => Raise OperationalError d
    end.
Proof.
  unfold bind, update_prayer_status, execute. cbn.
  destruct (prayers d) as [t|]; cbn; [|reflexivity].
  now rewrite map_map.
Qed.

(** X10.  Status updates in sequence: on one id the last status written
    is the one that stays, as if the earlier update had not been made; on
    two different ids the two updates give the same file in either
    order. *)
Theorem update_prayer_status_in_sequence (id1 id2 : Z) (s1 s2 : string)
    (d : db) :
  bind (update_prayer_status id1 s1) (fun _ => update_prayer_status id1 s2) d
  = update_prayer_status id1 s2 d
  /\ (id1 <> id2 ->
      bind (update_prayer_status id1 s1)
        (fun _ => update_prayer_status id2 s2) d
      = bind (update_prayer_status id2 s2)
          (fun _ => update_prayer_status id1 s1) d).
Proof.
  split.
  - rewrite update_then_update.
    unfold update_prayer_status, execute. cbn.
    destruct (prayers d) as [t|]; [|reflexivity].
    do 4 f_equal. apply map_ext. intros p. apply set_status_twice.
  - intros Hne. rewrite !update_then_update.
    destruct (prayers d) as [t|]; [|reflexivity].
    do 4 f_equal. apply map_ext. intros p. now apply set_status_swap.
Qed.

Lemma update_prayer_status_in_sequence_witness :
  1 <> 2
  /\ bind (update_prayer_status 1 "answered")
       (fun _ => update_prayer_status 2 "answered") Samples.prayers_db
     = bind (update_prayer_status 2 "answered")
         (fun _ => update_prayer_status 1 "answered") Samples.prayers_db.
Proof.
  split; [discriminate|].
  exact (proj2 (update_prayer_status_in_sequence 1 2 "answered" "answered"
                  Samples.prayers_db) ltac:(discriminate)).
Defined.

Lemma prayer_buttons_repondu_listed (id : Z) (listed : list prayer) :
  In id (map p_id listed) ->
  prayer_buttons (Some (Marquer_repondu id)) listed
  = update_prayer_status id "answered".
Proof.
  induction listed as [|row rest IH]; cbn [map In prayer_buttons]; [tauto|].
  intros Hin. cbn [pressed_repondu pressed_en_priere].
  destruct (Z.eqb_spec id (p_id row)) as [E|E]; [now rewrite E|].
  apply IH. destruct Hin; [congruence | assumption].
Qed.

Lemma prayer_buttons_en_priere_listed (id : Z) (listed : list prayer) :
  In id (map p_id listed) ->
  prayer_buttons (Some (Marquer_en_priere id)) listed
  = update_prayer_status id "open".
Proof.
  induction listed as [|row rest IH]; cbn [map In prayer_buttons]; [tauto|].
  intros Hin. cbn [pressed_repondu pressed_en_priere].
  destruct (Z.eqb_spec id (p_id row)) as [E|E]; [now rewrite E|].
  apply IH. destruct Hin; [congruence | assumption].
Qed.

Lemma prayer_buttons_not_listed (b : button) (listed : list prayer) :
  ~ In (match b with Marquer_repondu i | Marquer_en_priere i => i end)
      (map p_id listed) ->
  prayer_buttons (Some b) listed = ret tt.
Proof.
  induction listed as [|row rest IH]; cbn [map In prayer_buttons];
    [reflexivity|].
  intros Hnot. destruct b as [i|i]; cbn [pressed_repondu pressed_en_priere];
    (destruct (Z.eqb_spec i (p_id row)) as [E|E];
     [exfalso; apply Hnot; left; now symmetry | apply IH; tauto]).
Qed.

Lemma prayer_buttons_none (listed : list prayer) :
  prayer_buttons None listed = ret tt.
Proof. induction listed as [|row rest IH]; [reflexivity | exact IH]. Qed.

Lemma ORDER_BY_created_DESC_ids (id : Z) (l : list prayer) :
  In id (map p_id (ORDER_BY_created_DESC l)) <-> In id (map p_id l).
Proof.
  pose proof (Permutation_map p_id (ORDER_BY_created_DESC_perm l)) as P.
  split; intros H.
  - apply (Permutation_in _ (Permutation_sym P)), H.
  - apply (Permutation_in _ P), H.
Qed.

(** X11.  The loop over the listed prayers acts on the pressed button
    wherever its row stands in the list: pressing the "répondu" button of
    a prayer of the table has the effect of update_prayer_status(id,
    'answered'), pressing its "en prière" button that of
    update_prayer_status(id, 'open'); a button of an id that is not in
    the table has no effect. *)
Theorem prayer_list_acts_on_the_pressed_id (id : Z) (d : db)
    (t : table prayer) :
  prayers d = Some t ->
  (In id (map p_id (rows t)) ->
   prayer_list (Some (Marquer_repondu id)) d
   = update_prayer_status id "answered" d
   /\ prayer_list (Some (Marquer_en_priere id)) d
      = update_prayer_status id "open" d)
  /\ (~ In id (map p_id (rows t)) ->
      prayer_list (Some (Marquer_repondu id)) d = Ok tt d
      /\ prayer_list (Some (Marquer_en_priere id)) d = Ok tt d).
Proof.
  intros Hp.
  assert (Hlist : forall pressed,
             prayer_list pressed d =
             if (0 <? List.length (ORDER_BY_created_DESC (rows t)))%nat
             then prayer_buttons pressed (ORDER_BY_created_DESC (rows t)) d
             else Ok tt d).
  { intros pressed. unfold prayer_list.
    rewrite (bind_Ok _ _ _ _ _ (get_prayers_df_Ok _ _ Hp)).
    destruct (0 <? List.length (ORDER_BY_created_DESC (rows t)))%nat;
      reflexivity. }
  split.
  - intros Hin. apply ORDER_BY_created_DESC_ids in Hin.
    rewrite !Hlist.
    destruct (ORDER_BY_created_DESC (rows t)) as [|x l] eqn:E;
      [contradiction|].
    cbn [List.length Nat.ltb Nat.leb].
    rewrite prayer_buttons_repondu_listed, prayer_buttons_en_priere_listed
      by assumption.
    split; reflexivity.
  - intros Hnot. rewrite <- ORDER_BY_created_DESC_ids in Hnot.
    rewrite !Hlist.
    destruct (0 <? List.length (ORDER_BY_created_DESC (rows t)))%nat;
      [|split; reflexivity].
    rewrite (prayer_buttons_not_listed (Marquer_repondu id)) by assumption.
    rewrite (prayer_buttons_not_listed (Marquer_en_priere id)) by assumption.
    split; reflexivity.
Qed.

Lemma prayer_list_acts_on_the_pressed_id_witness :
  prayers Samples.four_prayers_db = Some Samples.four_prayers
  /\ In 3 (map p_id (rows Samples.four_prayers))
  /\ ~ In 8 (map p_id (rows Samples.four_prayers))
  /\ prayer_list (Some (Marquer_en_priere 3)) Samples.four_prayers_db
     = update_prayer_status 3 "open" Samples.four_prayers_db
  /\ prayer_list (Some (Marquer_repondu 8)) Samples.four_prayers_db
     = Ok tt Samples.four_prayers_db.
Proof.
  assert (Hin : In 3 (map p_id (rows Samples.four_prayers))).
  { cbn. tauto. }
  assert (Hnot : ~ In 8 (map p_id (rows Samples.four_prayers))).
  { cbn. intuition discriminate. }
  destruct (prayer_list_acts_on_the_pressed_id 3 Samples.four_prayers_db
              Samples.four_prayers eq_refl) as [H3 _].
  destruct (prayer_list_acts_on_the_pressed_id 8 Samples.four_prayers_db
              Samples.four_prayers eq_refl) as [_ H8].
  split; [reflexivity|]. split; [exact Hin|]. split; [exact Hnot|].
  split; [exact (proj2 (H3 Hin)) | exact (proj1 (H8 Hnot))].
Defined.

(** ** Vue d'ensemble: where the 30 days begin *)

(** X12.  The lower end of the 30-day filter, counted in days before the
    clock's date: a record dated at most 29 days before today is kept, a
    record dated more than 30 days before is dropped, and a record dated
    exactly 30 days before is kept only when the clock reads midnight,
    since a stored date stands for its midnight. *)
Theorem last_30_lower_end (clk : clock) (r : attendance_row)
    (attendance : list attendance_row) :
  valid_clock clk = true -> In r attendance ->
  let days_before := toordinal (today clk) - toordinal (v_attend_date r) in
  (days_before <= 29 -> In r (last_30 clk attendance))
  /\ (days_before = 30 ->
      (In r (last_30 clk attendance) <-> time_of_day clk = 0))
  /\ (30 < days_before -> ~ In r (last_30 clk attendance)).
Proof.
  intros Hclk Hin days_before.
  unfold valid_clock in Hclk. rewrite !andb_true_iff in Hclk.
  destruct Hclk as [[_ Hlo] Hhi].
  apply Z.leb_le in Hlo. apply Z.ltb_lt in Hhi.
  assert (Hkept : In r (last_30 clk attendance) <->
                  time_of_day clk <= (30 - days_before) * NS_PER_DAY).
  { unfold last_30. rewrite filter_In, Z.geb_le.
    unfold Timestamp_today, to_datetime, Timedelta, days_before.
    split; [intros [_ H] | intros H; split; [exact Hin|]]; lia. }
  unfold NS_PER_DAY in *. rewrite Hkept.
  repeat split; intros; lia.
Qed.

Lemma last_30_lower_end_witness :
  let r := mkattendance_row 1 1 (Some "Alice") (mkdate 2024 2 14) 1 "" in
  valid_clock Samples.clk0 = true /\ In r [r]
  /\ toordinal (today Samples.clk0) - toordinal (v_attend_date r) = 30
  /\ ~ In r (last_30 Samples.clk0 [r]).
Proof.
  intros r.
  destruct (last_30_lower_end Samples.clk0 r [r] eq_refl
              (or_introl eq_refl)) as (_ & H30 & _).
  split; [reflexivity|]. split; [now left|]. split; [reflexivity|].
  intros Hin. apply (H30 eq_refl) in Hin. discriminate.
Defined.

(** ** The archive reads back *)







(** ** Présences: the options of the member box *)

Section MemberMap.

Local Open Scope string_scope.

Lemma string_of_uint_no_space (u : Decimal.uint) :
  contains " " (NilEmpty.string_of_uint u) = false.
Proof. induction u; cbn; try assumption; reflexivity. Qed.

Lemma NilZero_string_of_uint_no_space (u : Decimal.uint) :
  contains " " (NilZero.string_of_uint u) = false.
Proof. destruct u; try reflexivity; apply string_of_uint_no_space. Qed.

Lemma string_of_Z_no_space (z : Z) :
  contains " " (NilZero.string_of_int (Z.to_int z)) = false.
Proof.
  destruct (Z.to_int z) as [u|u]; cbn [NilZero.string_of_int contains].
  - apply NilZero_string_of_uint_no_space.
  - rewrite NilZero_string_of_uint_no_space. reflexivity.
Qed.

(** A text without spaces is the part before the first space. *)
Lemma before_first_space (a b x y : string) :
  contains " " a = false -> contains " " b = false ->
  a ++ String " " x = b ++ String " " y -> a = b.
Proof.
  revert b. induction a as [|c a IH]; intros [|e b] Ha Hb E; cbn in *.
  - reflexivity.
  - injection E as E _. subst e. cbn in Hb. discriminate.
  - injection E as E _. subst c. cbn in Ha. discriminate.
  - injection E as -> E. apply orb_false_iff in Ha, Hb.
    f_equal. apply (IH b); tauto.
Qed.

Lemma label_id (r1 r2 : member) : label r1 = label r2 -> m_id r1 = m_id r2.
Proof.
  unfold label. intros E. apply string_of_Z_injective.
  apply (before_first_space _ _ _ _ (string_of_Z_no_space _)
           (string_of_Z_no_space _) E).
Qed.

Lemma labels_NoDup (ms : list member) :
  NoDup (map m_id ms) -> NoDup (map label ms).
Proof.
  induction ms as [|r ms IH]; cbn; intros Hnd; [constructor|].
  inversion Hnd as [|? ? Hnot Hnd']; subst. constructor; [|now apply IH].
  intros Hin. apply in_map_iff in Hin. destruct Hin as (r' & E & Hr').
  apply Hnot. rewrite <- (label_id _ _ E). now apply in_map.
Qed.

Lemma member_map_keys (ms : list member) :
  map fst (member_map ms) = map label ms.
Proof. unfold member_map. rewrite map_map. reflexivity. Qed.

Lemma dict_keys_distinct (entries : dict) :
  NoDup (map fst entries) -> dict_keys entries = map fst entries.
Proof.
  induction entries as [|[k v] rest IH]; cbn; intros Hnd; [reflexivity|].
  inversion Hnd as [|? ? Hnot Hnd']; subst. f_equal.
  rewrite IH by assumption.
  apply forallb_filter_id. apply forallb_forall. intros k' Hk'.
  apply negb_true_iff. apply String.eqb_neq. congruence.
Qed.

Lemma dict_get_absent (key : string) (entries : dict) :
  ~ In key (map fst entries) -> dict_get key entries = None.
Proof.
  induction entries as [|[k v] rest IH]; cbn; intros H; [reflexivity|].
  rewrite IH by tauto.
  destruct (String.eqb_spec key k); [exfalso; apply H; left; congruence|].
  reflexivity.
Qed.

Lemma dict_get_present (key : string) (v : Z) (entries : dict) :
  NoDup (map fst entries) -> In (key, v) entries ->
  dict_get key entries = Some v.
Proof.
  induction entries as [|[k v0] rest IH]; cbn; intros Hnd Hin; [tauto|].
  inversion Hnd as [|? ? Hnot Hnd']; subst.
  destruct Hin as [E | Hin].
  - injection E as -> ->. rewrite dict_get_absent by assumption.
    now rewrite String.eqb_refl.
  - now rewrite (IH Hnd' Hin).
Qed.

End MemberMap.

(** X14.  When the ids of the members are a key, the options of the
    member box are pairwise different, one per member in table order, and
    looking the option at a position up in member_map gives the id of the
    member at that position; a position past the last member gives
    nothing. *)
Theorem chosen_member_id_is_the_member_at_choice (ms : list member)
    (choice : nat) :
  NoDup (map m_id ms) ->
  dict_keys (member_map ms) = map label ms
  /\ NoDup (map label ms)
  /\ chosen_member_id ms choice = option_map m_id (nth_error ms choice).
Proof.
  intros Hnd. pose proof (labels_NoDup ms Hnd) as Hlab.
  assert (Hkeys : dict_keys (member_map ms) = map label ms).
  { rewrite dict_keys_distinct; rewrite member_map_keys; auto. }
  split; [exact Hkeys|]. split; [exact Hlab|].
  unfold chosen_member_id. rewrite Hkeys, nth_error_map.
  destruct (nth_error ms choice) as [r|] eqn:E; cbn; [|reflexivity].
  apply dict_get_present.
  - now rewrite member_map_keys.
  - unfold member_map. apply in_map_iff. exists r.
    split; [reflexivity | exact (nth_error_In _ _ E)].
Qed.

Lemma chosen_member_id_is_the_member_at_choice_witness :
  NoDup (map m_id (rows MoreSamples.two_members))
  /\ chosen_member_id (rows MoreSamples.two_members) 1 = Some 2
  /\ chosen_member_id (rows MoreSamples.two_members) 2 = None.
Proof.
  assert (Hnd : NoDup (map m_id (rows MoreSamples.two_members))).
  { cbn. repeat constructor; cbn; intuition discriminate. }
  split; [exact Hnd|].
  split.
  - exact (proj2 (proj2 (chosen_member_id_is_the_member_at_choice
                           (rows MoreSamples.two_members) 1 Hnd))).
  - exact (proj2 (proj2 (chosen_member_id_is_the_member_at_choice
                           (rows MoreSamples.two_members) 2 Hnd))).
Defined.

(** ** Présences: the history *)









(** ** Vue d'ensemble: the recent prayers and the open ones *)




Lemma filter_length_perm {A : Type} (f : A -> bool) (l l' : list A) :
  Permutation l l' ->
  List.length (filter f l) = List.length (filter f l').
Proof.
  induction 1 as [|x l l' _ IH|x y l|l l' l'' _ IH1 _ IH2]; cbn.
  - reflexivity.
  - destruct (f x); cbn; congruence.
  - destruct (f x), (f y); reflexivity.
  - congruence.
Qed.

Lemma prieres_ouvertes_view (stored : list prayer) :
  prieres_ouvertes (ORDER_BY_created_DESC stored) = prieres_ouvertes stored.
Proof.
  unfold prieres_ouvertes. symmetry.
  apply filter_length_perm, ORDER_BY_created_DESC_perm.
Qed.

(** X17.  The metric of open prayers, read before and after the
    "répondu" button of a prayer of the table is pressed: it goes down by
    exactly one when that prayer was open, and stays as it was when the
    prayer was not open. *)
Theorem marking_answered_lowers_the_open_count (d : db) (t : table prayer)
    (before after : list prayer) (r : prayer) :
  prayers d = Some t ->
  NoDup (map p_id (rows t)) ->
  rows t = before ++ r :: after ->
  exists d' view view',
    get_prayers_df d = Ok view d
    /\ prayer_list (Some (Marquer_repondu (p_id r))) d = Ok tt d'
    /\ get_prayers_df d' = Ok view' d'
    /\ (p_status r = "open" ->
        S (prieres_ouvertes view') = prieres_ouvertes view)
    /\ (p_status r <> "open" ->
        prieres_ouvertes view' = prieres_ouvertes view).
Proof.
  intros Hp Hnd Hrows.
  assert (Hin : In (p_id r) (map p_id (rows t))).
  { rewrite Hrows, map_app. apply in_app_iff. right. now left. }
  assert (Hlist : prayer_list (Some (Marquer_repondu (p_id r))) d
                  = update_prayer_status (p_id r) "answered" d).
  { unfold prayer_list.
    rewrite (bind_Ok _ _ _ _ _ (get_prayers_df_Ok _ _ Hp)).
    apply ORDER_BY_created_DESC_ids in Hin.
    destruct (ORDER_BY_created_DESC (rows t)) as [|x l] eqn:E;
      [contradiction|].
    cbn [List.length Nat.ltb Nat.leb].
    now rewrite prayer_buttons_repondu_listed. }
  rewrite Hlist, (update_prayer_status_Ok _ _ _ _ Hp).
  assert (Hnew : map (set_status "answered" (p_id r)) (rows t)
                 = before
                   ++ mkprayer (p_id r) (p_requester r) (p_content r)
                        (p_created r) "answered" :: after).
  { rewrite Hrows in Hnd |- *. rewrite map_app in Hnd. cbn in Hnd.
    apply NoDup_remove_2 in Hnd. rewrite in_app_iff in Hnd.
    rewrite map_app. cbn [map]. rewrite set_status_same.
    now rewrite !map_set_status_absent by tauto. }
  eexists. exists (ORDER_BY_created_DESC (rows t)). eexists.
  split; [now apply get_prayers_df_Ok|]. split; [reflexivity|].
  split; [apply get_prayers_df_Ok; reflexivity|].
  cbn [rows]. rewrite !prieres_ouvertes_view, Hnew, Hrows.
  unfold prieres_ouvertes. rewrite !filter_app, !length_app.
  cbn [filter p_status]. change ("answered" =? "open")%string with false.
  split; intros Hs.
  - rewrite Hs. cbn. lia.
  - apply String.eqb_neq in Hs. rewrite Hs. reflexivity.
Qed.

Lemma marking_answered_lowers_the_open_count_witness :
  prayers Samples.prayers_db = Some Samples.two_prayers
  /\ NoDup (map p_id (rows Samples.two_prayers))
  /\ exists d' view view',
       get_prayers_df Samples.prayers_db = Ok view Samples.prayers_db
       /\ prayer_list (Some (Marquer_repondu 2)) Samples.prayers_db = Ok tt d'
       /\ get_prayers_df d' = Ok view' d'
       /\ S (prieres_ouvertes view') = prieres_ouvertes view.
Proof.
  assert (Hnd : NoDup (map p_id (rows Samples.two_prayers))).
  { cbn. repeat constructor; cbn; intuition discriminate. }
  split; [reflexivity|]. split; [exact Hnd|].
  destruct (marking_answered_lowers_the_open_count Samples.prayers_db
              Samples.two_prayers
              [mkprayer 1 "Anonyme" "Paix" (mkdate 2024 3 14) "open"]
              [] (mkprayer 2 "Ruth" "Guérison" (mkdate 2024 3 15) "open")
              eq_refl Hnd eq_refl)
    as (d' & view & view' & H1 & H2 & H3 & H4 & _).
  exists d', view, view'. repeat split; try assumption.
  exact (H4 eq_refl).
Defined.

(** ** Startup *)

(** X18.  [init_db] never fails and never touches a table that exists:
    it keeps each existing table with its rows and counter, creates each
    missing one empty, leaves the file with its three tables, and a
    second call changes nothing. *)
Theorem init_db_creates_only_what_is_missing (d : db) :
  exists d1,
    init_db d = Ok tt d1
    /\ has_tables d1
    /\ init_db d1 = Ok tt d1
    /\ (forall t, members d = Some t -> members d1 = Some t)
    /\ (forall t, attendance d = Some t -> attendance d1 = Some t)
    /\ (forall t, prayers d = Some t -> prayers d1 = Some t)
    /\ (members d = None -> members d1 = Some empty_table)
    /\ (attendance d = None -> attendance d1 = Some empty_table)
    /\ (prayers d = None -> prayers d1 = Some empty_table).
Proof.
  exists (final (init_db d)).
  split; [now rewrite init_db_Ok|].
  split; [apply init_db_has_tables|].
  split; [apply init_db_idempotent, init_db_has_tables|].
  rewrite init_db_Ok. cbn [final members attendance prayers].
  repeat split; intros; try (rewrite H; reflexivity).
Qed.

Lemma init_db_creates_only_what_is_missing_witness :
  let d := mkdb (Some MoreSamples.two_members) None None in
  members d = Some MoreSamples.two_members /\ attendance d = None
  /\ init_db d
     = Ok tt (mkdb (Some MoreSamples.two_members) (Some empty_table)
                (Some empty_table)).
Proof.
  intros d.
  destruct (init_db_creates_only_what_is_missing d)
    as (d1 & H1 & _ & _ & Hm & _ & _ & _ & Ha & Hp).
  split; [reflexivity|]. split; [reflexivity|].
  rewrite H1. f_equal.
  specialize (Hm _ eq_refl). specialize (Ha eq_refl). specialize (Hp eq_refl).
  destruct d1; cbn in *; congruence.
Defined.

(** ** Prière: ties of the view in reachable states *)



